(** * bigip_security_address_list: address lists on a BIG-IP firewall

    A shallow embedding of [library/bigip_security_address_list.py]:
    the parameter classes ([ModuleParameters], [ApiParameters],
    [UsableChanges], [ReportableChanges]), the [Difference] class and the
    [ModuleManager] life cycle, followed by the properties the
    specification states about them.

    Conventions.
    - A Python [str] is a [string]; characters are 8-bit code points.
    - A dictionary with a fixed set of keys is a record of options: a key
      is present exactly when its field is [Some _]; Python's [None] value
      of an attribute is [None]. The parameter classes keep the
      dictionary they are built from in [_values], where a missing key
      reads as [None], and an attribute without a property of its own is
      read from there.
    - A Python exception is a value of [exn]; a computation that may raise
      returns a [result].
    - [netaddr] and the device client are libraries outside the module:
      they are interfaces ([Netaddr], [DeviceClient]) the definitions are
      parameterised by. *)

From Stdlib Require Import String Ascii List Bool Arith NArith Lia.
From Stdlib Require Import Sorting.Sorted Sorting.Permutation.
From Stdlib Require Import DecimalString.
Import ListNotations.
Local Open Scope list_scope.
Local Open Scope string_scope.

(** ** Exceptions and results *)

Inductive exn : Type :=
| F5ModuleError (msg : string)
| ValueError
| TypeError
| AddrFormatError
| iControlUnexpectedHTTPError (msg : string).

Inductive result (A : Type) : Type :=
| Ok (a : A)
| Raise (e : exn).

Arguments Ok {A} a.
Arguments Raise {A} e.

Definition rbind {A B} (m : result A) (k : A -> result B) : result B :=
  match m with
  | Ok a => k a
  | Raise e => Raise e
  end.

Declare Scope result_scope.
Delimit Scope result_scope with result.
Notation "x <- m ;; k" := (rbind m (fun x => k))
  (at level 61, m at next level, right associativity) : result_scope.
Notation "' pat <- m ;; k" := (rbind m (fun x => match x with pat => k end))
  (at level 61, pat pattern, m at next level, right associativity) : result_scope.

(** A [for] loop that appends one item per element: the first exception
    leaves the loop. *)
Fixpoint for_each {A B} (body : A -> result B) (l : list A) : result (list B) :=
  match l with
  | [] => Ok []
  | x :: rest =>
      (item <- body x ;;
       items <- for_each body rest ;;
       Ok (item :: items))%result
  end.

(** ** Python built-ins on strings *)

Module Py.

(** [c.isspace()] on the code points below 256. *)
Definition isspace (c : ascii) : bool :=
  let n := nat_of_ascii c in
  (Nat.leb 9 n && Nat.leb n 13) || (Nat.leb 28 n && Nat.leb n 32)
  || Nat.eqb n 133 || Nat.eqb n 160.

Fixpoint lstrip (s : string) : string :=
  match s with
  | String c rest => if isspace c then lstrip rest else s
  | EmptyString => EmptyString
  end.

Fixpoint rstrip (s : string) : string :=
  match s with
  | String c rest =>
      match rstrip rest with
      | EmptyString => if isspace c then EmptyString else String c EmptyString
      | rest' => String c rest'
      end
  | EmptyString => EmptyString
  end.

(** [s.strip()] *)
Definition strip (s : string) : string := rstrip (lstrip s).

(** [s.rstrip(ch)] for a one-character argument. *)
Fixpoint rstrip_char (ch : ascii) (s : string) : string :=
  match s with
  | String c rest =>
      match rstrip_char ch rest with
      | EmptyString => if Ascii.eqb c ch then EmptyString else String c EmptyString
      | rest' => String c rest'
      end
  | EmptyString => EmptyString
  end.

(** [s.split(sep)] for a one-character separator: one more part than
    there are separators. *)
Fixpoint split (sep : ascii) (s : string) : list string :=
  match s with
  | EmptyString => [EmptyString]
  | String c rest =>
      if Ascii.eqb c sep then EmptyString :: split sep rest
      else match split sep rest with
           | part :: parts => String c part :: parts
           | [] => [String c EmptyString]
           end
  end.

(** [ch in s] *)
Fixpoint contains (ch : ascii) (s : string) : bool :=
  match s with
  | String c rest => Ascii.eqb c ch || contains ch rest
  | EmptyString => false
  end.

(** [s.startswith(ch)] *)
Definition startswith (ch : ascii) (s : string) : bool :=
  match s with
  | String c _ => Ascii.eqb c ch
  | EmptyString => false
  end.

(** [sorted(l)] on a list of strings: ascending in the code-point order.
    The order is total and antisymmetric, so the result does not depend on
    the sorting algorithm; insertion sort is used here. *)
Fixpoint insort (x : string) (l : list string) : list string :=
  match l with
  | [] => [x]
  | y :: rest => if String.leb x y then x :: l else y :: insort x rest
  end.

Fixpoint sorted (l : list string) : list string :=
  match l with
  | [] => []
  | x :: rest => insort x (sorted rest)
  end.

(** [a != b] on lists of strings. *)
Definition list_ne (a b : list string) : bool :=
  if list_eq_dec string_dec a b then false else true.

End Py.


(** ** The netaddr library, as the module uses it

    [netaddr.IPAddress(s)] either raises or yields an address with a
    version (4 or 6) and an integer value; [str] prints an address.
    Addresses are ordered by the pair (version, value). *)

Record ipaddr : Type := { version : N; int_value : N }.

Class Netaddr : Type := {
  IPAddress : string -> result ipaddr;
  ip_str : ipaddr -> string
}.

(** [a > b] on addresses. *)
Definition ip_gt (a b : ipaddr) : bool :=
  N.ltb (version b) (version a)
  || (N.eqb (version a) (version b) && N.ltb (int_value b) (int_value a)).

(** ** Data *)

(** One element of the [geo_locations] option. *)
Record GeoLocation : Type := { country : string; region : option string }.

(** [module.params], after the argument spec has been applied. *)
Record params : Type := {
  p_name : string;
  p_partition : string;
  p_description : option string;
  p_addresses : option (list string);
  p_address_ranges : option (list string);
  p_address_lists : option (list string);
  p_fqdns : option (list string);
  p_geo_locations : option (list GeoLocation);
  p_state : string
}.

(** [{'name': ...}] and [{'name': ..., 'partition': ...}] *)
Record Entry : Type := { entry_name : string }.
Record ListRef : Type := { ref_name : string; ref_partition : string }.

(** The attributes of the resource on the device ([resource.attrs]) and the
    keyword arguments of [create] and [modify], under their wire names. *)
Record attrs : Type := {
  w_addressLists : option (list ListRef);
  w_addresses : option (list Entry);
  w_description : option string;
  w_fqdns : option (list Entry);
  w_geo : option (list Entry)
}.

Definition no_attrs : attrs :=
  {| w_addressLists := None; w_addresses := None; w_description := None;
     w_fqdns := None; w_geo := None |}.

(** ** class Parameters *)

Module Parameters.

Definition api_map : list (string * string) :=
  [("addressLists", "address_lists"); ("geo", "geo_locations")].

Definition api_attributes : list string :=
  ["addressLists"; "addresses"; "description"; "fqdns"; "geo"].

Inductive field : Type :=
| addresses | address_ranges | address_lists | description | fqdns | geo_locations.

Definition returnables : list field :=
  [addresses; address_ranges; address_lists; description; fqdns; geo_locations].

Definition updatables : list field :=
  [addresses; address_ranges; address_lists; description; fqdns; geo_locations].

Definition field_name (k : field) : string :=
  match k with
  | addresses => "addresses"
  | address_ranges => "address_ranges"
  | address_lists => "address_lists"
  | description => "description"
  | fqdns => "fqdns"
  | geo_locations => "geo_locations"
  end.

(** A dictionary keyed by these names. [A] is the type of the value under
    ['addresses'] and [L] the one under ['address_lists']: lists of strings
    in canonical form, lists of dictionaries in the device's shape. *)
Record values (A L : Type) : Type := {
  v_addresses : option A;
  v_address_ranges : option (list string);
  v_address_lists : option L;
  v_description : option string;
  v_fqdns : option (list string);
  v_geo_locations : option (list string)
}.

Arguments v_addresses {A L} _.
Arguments v_address_ranges {A L} _.
Arguments v_address_lists {A L} _.
Arguments v_description {A L} _.
Arguments v_fqdns {A L} _.
Arguments v_geo_locations {A L} _.

Definition value_of (A L : Type) (k : field) : Type :=
  match k with
  | addresses => A
  | address_lists => L
  | description => string
  | address_ranges | fqdns | geo_locations => list string
  end.

Definition empty {A L} : values A L :=
  {| v_addresses := None; v_address_ranges := None; v_address_lists := None;
     v_description := None; v_fqdns := None; v_geo_locations := None |}.

(** [d.get(k)] *)
Definition get {A L} (k : field) (d : values A L) : option (value_of A L k) :=
  match k with
  | addresses => v_addresses d
  | address_ranges => v_address_ranges d
  | address_lists => v_address_lists d
  | description => v_description d
  | fqdns => v_fqdns d
  | geo_locations => v_geo_locations d
  end.

(** [d[k] = v] *)
Definition set {A L} (k : field) :
  option (value_of A L k) -> values A L -> values A L :=
  match k with
  | addresses => fun v d =>
      {| v_addresses := v; v_address_ranges := v_address_ranges d;
         v_address_lists := v_address_lists d; v_description := v_description d;
         v_fqdns := v_fqdns d; v_geo_locations := v_geo_locations d |}
  | address_ranges => fun v d =>
      {| v_addresses := v_addresses d; v_address_ranges := v;
         v_address_lists := v_address_lists d; v_description := v_description d;
         v_fqdns := v_fqdns d; v_geo_locations := v_geo_locations d |}
  | address_lists => fun v d =>
      {| v_addresses := v_addresses d; v_address_ranges := v_address_ranges d;
         v_address_lists := v; v_description := v_description d;
         v_fqdns := v_fqdns d; v_geo_locations := v_geo_locations d |}
  | description => fun v d =>
      {| v_addresses := v_addresses d; v_address_ranges := v_address_ranges d;
         v_address_lists := v_address_lists d; v_description := v;
         v_fqdns := v_fqdns d; v_geo_locations := v_geo_locations d |}
  | fqdns => fun v d =>
      {| v_addresses := v_addresses d; v_address_ranges := v_address_ranges d;
         v_address_lists := v_address_lists d; v_description := v_description d;
         v_fqdns := v; v_geo_locations := v_geo_locations d |}
  | geo_locations => fun v d =>
      {| v_addresses := v_addresses d; v_address_ranges := v_address_ranges d;
         v_address_lists := v_address_lists d; v_description := v_description d;
         v_fqdns := v_fqdns d; v_geo_locations := v |}
  end.

(** [bool(d)]: the dictionary has a key. *)
Definition nonempty {A L} (d : values A L) : bool :=
  match d with
  | {| v_addresses := None; v_address_ranges := None; v_address_lists := None;
       v_description := None; v_fqdns := None; v_geo_locations := None |} => false
  | _ => true
  end.

(** Modelled from the spec: [_filter_params] belongs to the base class
    [AnsibleF5Parameters], which is not part of this file. It keeps the
    entries whose value is not [None] ("each field present only if actually
    changing"). A record of options does not tell a key that holds [None]
    from a missing key, so nothing is left to drop. *)
Definition _filter_params {A L} (d : values A L) : values A L := d.

(** [to_return]: one [getattr] per returnable, in order; any exception
    ends the loop and what has been collected so far is returned. *)
Section ToReturn.
Context {A L : Type}.
Variable getattr : forall k : field, result (option (value_of A L k)).

Fixpoint to_return_loop (ks : list field) (result : values A L)
  : values A L * bool :=
  match ks with
  | [] => (result, true)
  | returnable :: rest =>
      match getattr returnable with
      | Ok v => to_return_loop rest (set returnable v result)
      | Raise _ => (result, false)
      end
  end.

Definition to_return : values A L :=
  let '(result, completed) := to_return_loop returnables empty in
  if completed then _filter_params result else result.

End ToReturn.

(** [_fqdn_name] *)
Definition _fqdn_name (partition : string) (value : string) : string :=
  if negb (Py.startswith "/" value)
  then "/" ++ partition ++ "/" ++ value
  else value.

End Parameters.

(** ** class ApiParameters: the live state, read from the device

    [_values] holds the resource attributes; the constructor files
    ['addressLists'] under ['address_lists'] and ['geo'] under
    ['geo_locations'] ([api_map]). *)

Module ApiParameters.

Definition address_ranges (self : attrs) : option (list string) :=
  match w_addresses self with
  | None => None
  | Some l =>
      let result :=
        map (fun address_range => Py.strip (entry_name address_range))
            (filter (fun address_range => Py.contains "-" (entry_name address_range)) l) in
      Some (Py.sorted result)
  end.

Definition address_lists (self : attrs) : option (list string) :=
  match w_addressLists self with
  | None => None
  | Some l =>
      let result := map (fun x => "/" ++ ref_partition x ++ "/" ++ ref_name x) l in
      Some (Py.sorted result)
  end.

Definition addresses (self : attrs) : option (list string) :=
  match w_addresses self with
  | None => None
  | Some l =>
      let result :=
        map entry_name (filter (fun x => negb (Py.contains "-" (entry_name x))) l) in
      Some (Py.sorted result)
  end.

Definition fqdns (self : attrs) : option (list string) :=
  match w_fqdns self with
  | None => None
  | Some l => Some (Py.sorted (map entry_name l))
  end.

Definition geo_locations (self : attrs) : option (list string) :=
  match w_geo self with
  | None => None
  | Some l => Some (Py.sorted (map entry_name l))
  end.

(** [getattr(self, k)]: the property when there is one, the stored value
    otherwise. *)
Definition getattr (k : Parameters.field) (self : attrs)
  : option (Parameters.value_of (list string) (list string) k) :=
  match k with
  | Parameters.addresses => addresses self
  | Parameters.address_ranges => address_ranges self
  | Parameters.address_lists => address_lists self
  | Parameters.description => w_description self
  | Parameters.fqdns => fqdns self
  | Parameters.geo_locations => geo_locations self
  end.

End ApiParameters.

(** ** class ModuleParameters: the desired state, from the user *)

Module ModuleParameters.

Definition country_iso_map : list (string * string) := [
    ("Afghanistan", "AF");
    ("Albania", "AL");
    ("Algeria", "DZ");
    ("American Samoa", "AS");
    ("Andorra", "AD");
    ("Angola", "AO");
    ("Anguilla", "AI");
    ("Antarctica", "AQ");
    ("Antigua and Barbuda", "AG");
    ("Argentina", "AR");
    ("Armenia", "AM");
    ("Aruba", "AW");
    ("Australia", "AU");
    ("Austria", "AT");
    ("Azerbaijan", "AZ");
    ("Bahamas", "BS");
    ("Bahrain", "BH");
    ("Bangladesh", "BD");
    ("Barbados", "BB");
    ("Belarus", "BY");
    ("Belgium", "BE");
    ("Belize", "BZ");
    ("Benin", "BJ");
    ("Bermuda", "BM");
    ("Bhutan", "BT");
    ("Bolivia", "BO");
    ("Bosnia and Herzegovina", "BA");
    ("Botswana", "BW");
    ("Brazil", "BR");
    ("Brunei", "BN");
    ("Bulgaria", "BG");
    ("Burkina Faso", "BF");
    ("Burundi", "BI");
    ("Cameroon", "CM");
    ("Canada", "CA");
    ("Cape Verde", "CV");
    ("Central African Republic", "CF");
    ("Chile", "CL");
    ("China", "CN");
    ("Christmas Island", "CX");
    ("Cocos Islands", "CC");
    ("Colombia", "CO");
    ("Cook Islands", "CK");
    ("Costa Rica", "CR");
    ("Cuba", "CU");
    ("Curacao", "CW");
    ("Cyprus", "CY");
    ("Czech Republic", "CZ");
    ("Democratic Republic of the Congo", "CD");
    ("Denmark", "DK");
    ("Djibouti", "DJ");
    ("Dominica", "DM");
    ("Dominican Republic", "DO");
    ("Ecuador", "EC");
    ("Egypt", "EG");
    ("Eritrea", "ER");
    ("Estonia", "EE");
    ("Ethiopia", "ET");
    ("Falkland Islands", "FK");
    ("Faroe Islands", "FO");
    ("Fiji", "FJ");
    ("Finland", "FI");
    ("France", "FR");
    ("French Polynesia", "PF");
    ("Gabon", "GA");
    ("Gambia", "GM");
    ("Georgia", "GE");
    ("Germany", "DE");
    ("Ghana", "GH");
    ("Gilbraltar", "GI");
    ("Greece", "GR");
    ("Greenland", "GL");
    ("Grenada", "GD");
    ("Guam", "GU");
    ("Guatemala", "GT");
    ("Guernsey", "GG");
    ("Guinea", "GN");
    ("Guinea-Bissau", "GW");
    ("Guyana", "GY");
    ("Haiti", "HT");
    ("Honduras", "HN");
    ("Hong Kong", "HK");
    ("Hungary", "HU");
    ("Iceland", "IS");
    ("India", "IN");
    ("Indonesia", "ID");
    ("Iran", "IR");
    ("Iraq", "IQ");
    ("Ireland", "IE");
    ("Isle of Man", "IM");
    ("Israel", "IL");
    ("Italy", "IT");
    ("Ivory Coast", "CI");
    ("Jamaica", "JM");
    ("Japan", "JP");
    ("Jersey", "JE");
    ("Jordan", "JO");
    ("Kazakhstan", "KZ");
    ("Laos", "LA");
    ("Latvia", "LV");
    ("Lebanon", "LB");
    ("Lesotho", "LS");
    ("Liberia", "LR");
    ("Libya", "LY");
    ("Liechtenstein", "LI");
    ("Lithuania", "LT");
    ("Luxembourg", "LU");
    ("Macau", "MO");
    ("Macedonia", "MK");
    ("Madagascar", "MG");
    ("Malawi", "MW");
    ("Malaysia", "MY");
    ("Maldives", "MV");
    ("Mali", "ML");
    ("Malta", "MT");
    ("Marshall Islands", "MH");
    ("Mauritania", "MR");
    ("Mauritius", "MU");
    ("Mayotte", "YT");
    ("Mexico", "MX");
    ("Micronesia", "FM");
    ("Moldova", "MD");
    ("Monaco", "MC");
    ("Mongolia", "MN");
    ("Montenegro", "ME");
    ("Montserrat", "MS");
    ("Morocco", "MA");
    ("Mozambique", "MZ");
    ("Myanmar", "MM");
    ("Namibia", "NA");
    ("Nauru", "NR");
    ("Nepal", "NP");
    ("Netherlands", "NL");
    ("Netherlands Antilles", "AN");
    ("New Caledonia", "NC");
    ("New Zealand", "NZ");
    ("Nicaragua", "NI");
    ("Niger", "NE");
    ("Nigeria", "NG");
    ("Niue", "NU");
    ("North Korea", "KP");
    ("Northern Mariana Islands", "MP");
    ("Norway", "NO");
    ("Oman", "OM");
    ("Pakistan", "PK");
    ("Palau", "PW");
    ("Palestine", "PS");
    ("Panama", "PA");
    ("Papua New Guinea", "PG");
    ("Paraguay", "PY");
    ("Peru", "PE");
    ("Philippines", "PH");
    ("Pitcairn", "PN");
    ("Poland", "PL");
    ("Portugal", "PT");
    ("Puerto Rico", "PR");
    ("Qatar", "QA");
    ("Republic of the Congo", "CG");
    ("Reunion", "RE");
    ("Romania", "RO");
    ("Russia", "RU");
    ("Rwanda", "RW");
    ("Saint Barthelemy", "BL");
    ("Saint Helena", "SH");
    ("Saint Kitts and Nevis", "KN");
    ("Saint Lucia", "LC");
    ("Saint Martin", "MF");
    ("Saint Pierre and Miquelon", "PM");
    ("Saint Vincent and the Grenadines", "VC");
    ("Samoa", "WS");
    ("San Marino", "SM");
    ("Sao Tome and Principe", "ST");
    ("Saudi Arabia", "SA");
    ("Senegal", "SN");
    ("Serbia", "RS");
    ("Seychelles", "SC");
    ("Sierra Leone", "SL");
    ("Singapore", "SG");
    ("Sint Maarten", "SX");
    ("Slovakia", "SK");
    ("Slovenia", "SI");
    ("Solomon Islands", "SB");
    ("Somalia", "SO");
    ("South Africa", "ZA");
    ("South Korea", "KR");
    ("South Sudan", "SS");
    ("Spain", "ES");
    ("Sri Lanka", "LK");
    ("Sudan", "SD");
    ("Suriname", "SR");
    ("Svalbard and Jan Mayen", "SJ");
    ("Swaziland", "SZ");
    ("Sweden", "SE");
    ("Switzerland", "CH");
    ("Syria", "SY");
    ("Taiwan", "TW");
    ("Tajikstan", "TJ");
    ("Tanzania", "TZ");
    ("Thailand", "TH");
    ("Togo", "TG");
    ("Tokelau", "TK");
    ("Tonga", "TO");
    ("Trinidad and Tobago", "TT");
    ("Tunisia", "TN");
    ("Turkey", "TR");
    ("Turkmenistan", "TM");
    ("Turks and Caicos Islands", "TC");
    ("Tuvalu", "TV");
    ("U.S. Virgin Islands", "VI");
    ("Uganda", "UG");
    ("Ukraine", "UA");
    ("United Arab Emirates", "AE");
    ("United Kingdom", "GB");
    ("United States", "US");
    ("Uruguay", "UY");
    ("Uzbekistan", "UZ");
    ("Vanuatu", "VU");
    ("Vatican", "VA");
    ("Venezuela", "VE");
    ("Vietnam", "VN");
    ("Wallis and Futuna", "WF");
    ("Western Sahara", "EH");
    ("Yemen", "YE");
    ("Zambia", "ZM");
    ("Zimbabwe", "ZW")].

Definition choices_iso_codes : list string := map snd country_iso_map.

(** The character class [[A-Z0-9-]] under [re.IGNORECASE]. *)
Definition in_class (c : ascii) : bool :=
  let n := nat_of_ascii c in
  (Nat.leb 65 n && Nat.leb n 90) || (Nat.leb 97 n && Nat.leb n 122)
  || (Nat.leb 48 n && Nat.leb n 57) || Ascii.eqb c "-".

(** [$]: at the end of the string, or just before a newline that ends it. *)
Definition at_dollar (s : string) : bool :=
  match s with
  | EmptyString => true
  | String c EmptyString => Ascii.eqb c "010"
  | _ => false
  end.

(** After one or more characters of the class, the last of them [last]:
    either stop here ([(?<!-)$]) or take one more, at most [n] times. *)
Fixpoint class_tail (n : nat) (last : ascii) (s : string) : bool :=
  (negb (Ascii.eqb last "-") && at_dollar s)
  || match n, s with
     | S n', String c rest => in_class c && class_tail n' c rest
     | _, _ => false
     end.

(** [allowed.match(x)] for
    [allowed = re.compile(r'(?!-)[A-Z0-9-]{1,63}(?<!-)$', re.IGNORECASE)]. *)
Definition allowed_match (x : string) : bool :=
  match x with
  | String c rest => negb (Ascii.eqb c "-") && in_class c && class_tail 62 c rest
  | EmptyString => false
  end.

Definition is_valid_hostname (host : string) : bool :=
  if Nat.ltb 255 (String.length host) then false
  else
    let host := Py.rstrip_char "." host in
    forallb allowed_match (Py.split "." host).

Section WithNetaddr.
Context {netaddr : Netaddr}.

Definition addresses (self : params) : result (option (list string)) :=
  match p_addresses self with
  | None => Ok None
  | Some l =>
      (_ <- for_each (fun x =>
              match IPAddress x with
              | Ok _ => Ok tt
              | Raise AddrFormatError =>
                  Raise (F5ModuleError
                    ("Address " ++ x ++ " must be either an IPv4 or IPv6 address"))
              | Raise e => Raise e
              end) l ;;
       Ok (Some (Py.sorted l)))%result
  end.

(** [start, stop = parts] *)
Definition unpack2 (parts : list string) : result (string * string) :=
  match parts with
  | [start; stop] => Ok (start, stop)
  | _ => Raise ValueError
  end.

(** The body of the loop over the ranges; [ReportableChanges.address_ranges]
    repeats it word for word. *)
Definition range_item (address_range : string) : result string :=
  ('(start, stop) <- unpack2 (Py.split "-" address_range) ;;
   let start := Py.strip start in
   let stop := Py.strip stop in
   start <- IPAddress start ;;
   stop <- IPAddress stop ;;
   if negb (N.eqb (version start) (version stop))
   then Raise (F5ModuleError
     "When specifying a range, IP addresses must be of the same type; IPv4 or IPv6.")
   else
     let '(start, stop) := if ip_gt start stop then (stop, start) else (start, stop) in
     Ok (ip_str start ++ "-" ++ ip_str stop))%result.

Definition address_ranges (self : params) : result (option (list string)) :=
  match p_address_ranges self with
  | None => Ok None
  | Some l =>
      (result <- for_each range_item l ;;
       Ok (Some (Py.sorted result)))%result
  end.

End WithNetaddr.

Definition address_lists (self : params) : option (list string) :=
  match p_address_lists self with
  | None => None
  | Some l =>
      let result := map (Parameters._fqdn_name (p_partition self)) l in
      Some (Py.sorted result)
  end.

Definition fqdns (self : params) : result (option (list string)) :=
  match p_fqdns self with
  | None => Ok None
  | Some l =>
      (result <- for_each (fun x =>
                   if is_valid_hostname x then Ok x
                   else Raise (F5ModuleError
                          ("The hostname '" ++ x ++ "' looks invalid."))) l ;;
       Ok (Some (Py.sorted result)))%result
  end.

Definition geo_locations (self : params) : option (list string) :=
  match p_geo_locations self with
  | None => None
  | Some l =>
      let result :=
        map (fun x =>
               match region x with
               | Some r =>
                   if negb (String.eqb (Py.strip r) "")
                   then country x ++ ":" ++ r
                   else country x
               | None => country x
               end) l in
      Some (Py.sorted result)
  end.

(** [getattr(self, k)] *)
Definition getattr {netaddr : Netaddr} (k : Parameters.field) (self : params)
  : result (option (Parameters.value_of (list string) (list string) k)) :=
  match k with
  | Parameters.addresses => addresses self
  | Parameters.address_ranges => address_ranges self
  | Parameters.address_lists => Ok (address_lists self)
  | Parameters.description => Ok (p_description self)
  | Parameters.fqdns => fqdns self
  | Parameters.geo_locations => Ok (geo_locations self)
  end.

End ModuleParameters.

(** The keyword arguments that [create] and [modify] receive. *)
Record kwargs : Type := {
  kw_addressLists : option (list ListRef);
  kw_addresses : option (list Entry);
  kw_description : option string;
  kw_fqdns : option (list string);
  kw_geo : option (list string)
}.

(** ** class UsableChanges: the change-set in the device's shape

    [self] is the dictionary the object was built from. *)

Module UsableChanges.

Definition self_t : Type := Parameters.values (list string) (list string).

Definition entries (l : list string) : list Entry :=
  map (fun x => {| entry_name := x |}) l.

Definition addresses (self : self_t) : option (list Entry) :=
  match Parameters.v_addresses self, Parameters.v_address_ranges self with
  | None, None => None
  | a, r =>
      let result := [] in
      let result := match a with Some l => result ++ entries l | None => result end in
      let result := match r with Some l => result ++ entries l | None => result end in
      Some result
  end%list.

Definition address_lists (self : self_t) : result (option (list ListRef)) :=
  match Parameters.v_address_lists self with
  | None => Ok None
  | Some l =>
      (result <- for_each (fun x =>
                   match tl (Py.split "/" x) with
                   | [partition; name] =>
                       Ok {| ref_name := name; ref_partition := partition |}
                   | _ => Raise ValueError
                   end) l ;;
       Ok (Some result))%result
  end.

Definition getattr (self : self_t) (k : Parameters.field)
  : result (option (Parameters.value_of (list Entry) (list ListRef) k)) :=
  match k with
  | Parameters.addresses => Ok (addresses self)
  | Parameters.address_ranges => Ok (Parameters.v_address_ranges self)
  | Parameters.address_lists => address_lists self
  | Parameters.description => Ok (Parameters.v_description self)
  | Parameters.fqdns => Ok (Parameters.v_fqdns self)
  | Parameters.geo_locations => Ok (Parameters.v_geo_locations self)
  end.

(** [Changes.to_return] *)
Definition to_return (self : self_t)
  : Parameters.values (list Entry) (list ListRef) :=
  Parameters.to_return (getattr self).

(** Modelled from the spec: [api_params] belongs to the base class
    [AnsibleF5Parameters], which is not part of this file. For each name
    of [api_attributes] it reads the attribute that [api_map] names (the
    name itself when the map has none) and keeps the values that are not
    [None]: "submit an update with exactly the changed fields". *)
Definition api_params (self : self_t) : result kwargs :=
  (al <- address_lists self ;;
   Ok {| kw_addressLists := al;
         kw_addresses := addresses self;
         kw_description := Parameters.v_description self;
         kw_fqdns := Parameters.v_fqdns self;
         kw_geo := Parameters.v_geo_locations self |})%result.

End UsableChanges.

(** ** class ReportableChanges: the change-set as reported *)

Module ReportableChanges.

Definition self_t : Type := Parameters.values (list Entry) (list ListRef).

(** [for item in self._values[...]]: iterating [None] raises. *)
Definition iter {A} (v : option (list A)) : result (list A) :=
  match v with
  | Some l => Ok l
  | None => Raise TypeError
  end.

Definition addresses (self : self_t) : result (list string) :=
  (items <- iter (Parameters.v_addresses self) ;;
   Ok (map entry_name
         (filter (fun item => negb (Py.contains "-" (entry_name item))) items)))%result.

Definition address_ranges {netaddr : Netaddr} (self : self_t)
  : result (list string) :=
  (items <- iter (Parameters.v_addresses self) ;;
   result <- for_each (fun item => ModuleParameters.range_item (entry_name item))
               (filter (fun item => Py.contains "-" (entry_name item)) items) ;;
   Ok (Py.sorted result))%result.

Definition address_lists (self : self_t) : result (list string) :=
  (items <- iter (Parameters.v_address_lists self) ;;
   Ok (Py.sorted
         (map (fun x => "/" ++ ref_partition x ++ "/" ++ ref_name x) items)))%result.

Definition getattr {netaddr : Netaddr} (self : self_t) (k : Parameters.field)
  : result (option (Parameters.value_of (list string) (list string) k)) :=
  match k with
  | Parameters.addresses => (r <- addresses self ;; Ok (Some r))%result
  | Parameters.address_ranges => (r <- address_ranges self ;; Ok (Some r))%result
  | Parameters.address_lists => (r <- address_lists self ;; Ok (Some r))%result
  | Parameters.description => Ok (Parameters.v_description self)
  | Parameters.fqdns => Ok (Parameters.v_fqdns self)
  | Parameters.geo_locations => Ok (Parameters.v_geo_locations self)
  end.

(** [Changes.to_return] *)
Definition to_return {netaddr : Netaddr} (self : self_t)
  : Parameters.values (list string) (list string) :=
  Parameters.to_return (getattr self).

End ReportableChanges.

(** ** class Difference *)

Module Difference.

Section WithNetaddr.
Context {netaddr : Netaddr}.
Variable want : params.
Variable have : attrs.

(** The four properties have the same body, each on its own attribute. *)
Definition sorted_difference
           (want_attr : result (option (list string)))
           (have_attr : option (list string))
  : result (option (list string)) :=
  (w <- want_attr ;;
   match w with
   | None => Ok None
   | Some w =>
       match have_attr with
       | None => Ok (Some w)
       | Some h =>
           if Py.list_ne (Py.sorted w) (Py.sorted h) then Ok (Some w) else Ok None
       end
   end)%result.

Definition addresses : result (option (list string)) :=
  sorted_difference (ModuleParameters.addresses want) (ApiParameters.addresses have).

Definition address_lists : result (option (list string)) :=
  sorted_difference (Ok (ModuleParameters.address_lists want))
                    (ApiParameters.address_lists have).

Definition address_ranges : result (option (list string)) :=
  sorted_difference (ModuleParameters.address_ranges want)
                    (ApiParameters.address_ranges have).

Definition fqdns : result (option (list string)) :=
  sorted_difference (ModuleParameters.fqdns want) (ApiParameters.fqdns have).

(** [attr1 != attr2] at the type of the attribute. *)
Definition attr_ne (param : Parameters.field)
  : option (Parameters.value_of (list string) (list string) param) ->
    option (Parameters.value_of (list string) (list string) param) -> bool :=
  match param with
  | Parameters.description => fun a b =>
      match a, b with
      | None, None => false
      | Some a, Some b => negb (String.eqb a b)
      | _, _ => true
      end
  | _ => fun a b =>
      match a, b with
      | None, None => false
      | Some a, Some b => Py.list_ne a b
      | _, _ => true
      end
  end.

(** [__default]: the attribute of [have] always exists, so the handler of
    [AttributeError] is never entered. *)
Definition __default (param : Parameters.field)
  : result (option (Parameters.value_of (list string) (list string) param)) :=
  (attr1 <- ModuleParameters.getattr param want ;;
   let attr2 := ApiParameters.getattr param have in
   if attr_ne param attr1 attr2 then Ok attr1 else Ok None)%result.

(** [compare]: the property of that name when the class has one,
    [__default] otherwise. *)
Definition compare (param : Parameters.field)
  : result (option (Parameters.value_of (list string) (list string) param)) :=
  match param with
  | Parameters.addresses => addresses
  | Parameters.address_lists => address_lists
  | Parameters.address_ranges => address_ranges
  | Parameters.fqdns => fqdns
  | Parameters.description => __default Parameters.description
  | Parameters.geo_locations => __default Parameters.geo_locations
  end.

End WithNetaddr.
End Difference.

(** ** The device client

    The calls the module makes on
    [client.api.tm.security.firewall.address_lists.address_list] and on a
    loaded resource, for the resource [name] in [partition], on a device in
    state [D]. A call either raises or answers; [create], [modify] and
    [delete] also yield the device's next state. *)

Class DeviceClient (D : Type) : Type := {
  address_list_exists : string -> string -> D -> result bool;
  address_list_load : string -> string -> D -> result attrs;
  address_list_create : string -> string -> kwargs -> D -> result D;
  resource_modify : string -> string -> kwargs -> D -> result D;
  resource_delete : string -> string -> D -> result D
}.

(** The calls made, for the record. *)
Inductive call : Type :=
| Exists
| Load
| Create (kw : kwargs)
| Modify (kw : kwargs)
| Delete.

(** [AnsibleModule]: what the manager reads from it. *)
Record ansible_module : Type := {
  module_params : params;
  check_mode : bool
}.

(** ** class ModuleManager *)

Module ModuleManager.

(** The mutable part of the manager, together with the device it talks to
    and the calls made so far (latest last). *)
Record state (D : Type) : Type := {
  device : D;
  calls : list call;
  have : attrs;
  changes : UsableChanges.self_t
}.

Arguments device {D} _.
Arguments calls {D} _.
Arguments have {D} _.
Arguments changes {D} _.

(** A method: runs on a state, raises or returns, and leaves a state. *)
Definition M (D A : Type) : Type := state D -> result A * state D.

Definition ret {D A} (a : A) : M D A := fun s => (Ok a, s).

Definition raise {D A} (e : exn) : M D A := fun s => (Raise e, s).

Definition bind {D A B} (m : M D A) (k : A -> M D B) : M D B :=
  fun s =>
    match m s with
    | (Ok a, s') => k a s'
    | (Raise e, s') => (Raise e, s')
    end.

(** A pure computation that may raise. *)
Definition lift {D A} (r : result A) : M D A := fun s => (r, s).

Declare Scope manager_scope.
Delimit Scope manager_scope with manager.
Notation "x <- m ;; k" := (bind m (fun x => k))
  (at level 61, m at next level, right associativity) : manager_scope.
Notation "m ;;; k" := (bind m (fun _ => k))
  (at level 61, right associativity) : manager_scope.

Section WithLibraries.
Context {netaddr : Netaddr} {D : Type} {client : DeviceClient D}.
Variable module : ansible_module.

Definition want : params := module_params module.

(** [__init__] *)
Definition init (dev : D) : state D :=
  {| device := dev; calls := []; have := no_attrs; changes := Parameters.empty |}.

Definition record_call (c : call) (s : state D) : state D :=
  {| device := device s; calls := (calls s ++ [c])%list;
     have := have s; changes := changes s |}.

(** A call that reads the device. *)
Definition query {A} (c : call) (f : D -> result A) : M D A :=
  fun s => (f (device s), record_call c s).

(** A call that changes the device. *)
Definition command (c : call) (f : D -> result D) : M D unit :=
  fun s =>
    match f (device s) with
    | Ok dev =>
        (Ok tt, {| device := dev; calls := (calls s ++ [c])%list;
                  have := have s; changes := changes s |})
    | Raise e => (Raise e, record_call c s)
    end.

Definition set_have (a : attrs) : M D unit :=
  fun s => (Ok tt, {| device := device s; calls := calls s;
                     have := a; changes := changes s |}).

Definition set_changes (c : UsableChanges.self_t) : M D unit :=
  fun s => (Ok tt, {| device := device s; calls := calls s;
                     have := have s; changes := c |}).

Definition get_have : M D attrs := fun s => (Ok (have s), s).

Definition get_changes : M D UsableChanges.self_t := fun s => (Ok (changes s), s).

(** The loop of [_update_changed_options] over [updatables]. No change is
    ever a dictionary, so [changed[k] = change] is the only branch taken. *)
Fixpoint changed_options (have : attrs) (ks : list Parameters.field)
         (changed : UsableChanges.self_t) : result UsableChanges.self_t :=
  match ks with
  | [] => Ok changed
  | k :: rest =>
      (change <- Difference.compare want have k ;;
       match change with
       | None => changed_options have rest changed
       | Some v => changed_options have rest (Parameters.set k (Some v) changed)
       end)%result
  end.

Definition _update_changed_options : M D bool :=
  (have <- get_have ;;
   changed <- lift (changed_options have Parameters.updatables Parameters.empty) ;;
   if Parameters.nonempty changed
   then set_changes changed ;;; ret true
   else ret false)%manager.

Definition should_update : M D bool :=
  (result <- _update_changed_options ;;
   if result then ret true else ret false)%manager.

Definition exists_ : M D bool :=
  query Exists (address_list_exists (p_name want) (p_partition want)).

Definition read_current_from_device : M D attrs :=
  query Load (address_list_load (p_name want) (p_partition want)).

Definition update_on_device : M D unit :=
  (changes <- get_changes ;;
   params <- lift (UsableChanges.api_params changes) ;;
   _ <- query Load (address_list_load (p_name want) (p_partition want)) ;;
   command (Modify params)
     (resource_modify (p_name want) (p_partition want) params))%manager.

Definition create_on_device : M D unit :=
  (changes <- get_changes ;;
   params <- lift (UsableChanges.api_params changes) ;;
   command (Create params)
     (address_list_create (p_name want) (p_partition want) params))%manager.

(** A loaded resource is an object without [__bool__] or [__len__]: it is
    true, and [delete] is called. *)
Definition remove_from_device : M D unit :=
  (_ <- query Load (address_list_load (p_name want) (p_partition want)) ;;
   command Delete (resource_delete (p_name want) (p_partition want)))%manager.

Definition update : M D bool :=
  (have <- read_current_from_device ;;
   set_have have ;;;
   should <- should_update ;;
   if negb should then ret false
   else if check_mode module then ret true
   else update_on_device ;;; ret true)%manager.

Definition remove : M D bool :=
  (if check_mode module then ret true
   else
     remove_from_device ;;;
     still <- exists_ ;;
     if still then raise (F5ModuleError "Failed to delete the resource.")
     else ret true)%manager.

Definition create : M D bool :=
  (set_have no_attrs ;;;
   _ <- _update_changed_options ;;
   if check_mode module then ret true
   else create_on_device ;;; ret true)%manager.

Definition present : M D bool :=
  (found <- exists_ ;;
   if found then update else create)%manager.

Definition absent : M D bool :=
  (found <- exists_ ;;
   if found then remove else ret false)%manager.

(** What [exec_module] returns: the reported changes and [changed]. *)
Record outcome : Type := {
  reported : Parameters.values (list string) (list string);
  changed : bool
}.

(** [except iControlUnexpectedHTTPError as e: raise F5ModuleError(str(e))] *)
Definition wrap_http {A} (m : M D A) : M D A :=
  fun s =>
    match m s with
    | (Raise (iControlUnexpectedHTTPError msg), s') => (Raise (F5ModuleError msg), s')
    | r => r
    end.

(** [_announce_deprecations] pops ['__warnings'], which the reported
    changes never hold. *)
Definition exec_module : M D outcome :=
  (changed <- wrap_http
     (if String.eqb (p_state want) "present" then present
      else if String.eqb (p_state want) "absent" then absent
      else ret false) ;;
   changes <- get_changes ;;
   let reportable := UsableChanges.to_return changes in
   let changes := ReportableChanges.to_return reportable in
   ret {| reported := changes; changed := changed |})%manager.

End WithLibraries.
End ModuleManager.

(** ** Instances to run the module on

    [Textual] is an instance of [Netaddr] for the plain spellings: four
    decimal octets without leading zeros, and eight groups of hexadecimal
    digits with at most one [::]. Other spellings are refused, and an IPv6
    address is always printed in colon-hexadecimal groups (the dotted tail
    of IPv4-mapped addresses is left out). *)

Module Textual.

Definition digit (c : ascii) : option N :=
  let n := N_of_ascii c in
  if (N.leb 48 n && N.leb n 57)%bool then Some (n - 48)%N else None.

Definition hex_digit (c : ascii) : option N :=
  let n := N_of_ascii c in
  if (N.leb 48 n && N.leb n 57)%bool then Some (n - 48)%N
  else if (N.leb 97 n && N.leb n 102)%bool then Some (n - 87)%N
  else if (N.leb 65 n && N.leb n 70)%bool then Some (n - 55)%N
  else None.

Fixpoint number (base : N) (d : ascii -> option N) (s : string) (acc : N)
  : option N :=
  match s with
  | EmptyString => Some acc
  | String c rest =>
      match d c with
      | Some n => number base d rest (acc * base + n)%N
      | None => None
      end
  end.

Definition octet (s : string) : option N :=
  match s with
  | EmptyString => None
  | String "0" (String _ _) => None
  | _ =>
      match number 10 digit s 0 with
      | Some n => if N.leb n 255 then Some n else None
      | None => None
      end
  end.

Definition group (s : string) : option N :=
  if (Nat.leb 1 (String.length s) && Nat.leb (String.length s) 4)%bool
  then number 16 hex_digit s 0
  else None.

Fixpoint all_some {A} (l : list (option A)) : option (list A) :=
  match l with
  | [] => Some []
  | Some a :: rest => option_map (cons a) (all_some rest)
  | None :: _ => None
  end.

Definition ipv4 (s : string) : option N :=
  match map octet (Py.split "." s) with
  | [Some a; Some b; Some c; Some d] => Some (((a * 256 + b) * 256 + c) * 256 + d)%N
  | _ => None
  end.

(** The text before and after the first [::]. *)
Fixpoint cut_gap (s : string) : option (string * string) :=
  match s with
  | EmptyString => None
  | String c rest =>
      match c, rest with
      | ":"%char, String ":"%char after => Some (EmptyString, after)
      | _, _ =>
          match cut_gap rest with
          | Some (before, after) => Some (String c before, after)
          | None => None
          end
      end
  end.

Definition groups (s : string) : option (list N) :=
  match s with
  | EmptyString => Some []
  | _ => all_some (map group (Py.split ":" s))
  end.

Definition ipv6_groups (s : string) : option (list N) :=
  match cut_gap s with
  | Some (before, after) =>
      match groups before, groups after with
      | Some b, Some a =>
          let n := (List.length b + List.length a)%nat in
          if Nat.leb n 7 then Some (b ++ repeat 0%N (8 - n) ++ a)%list else None
      | _, _ => None
      end
  | None =>
      match groups s with
      | Some g => if Nat.eqb (List.length g) 8 then Some g else None
      | None => None
      end
  end.

Definition ipv6 (s : string) : option N :=
  match ipv6_groups s with
  | Some g => Some (fold_left (fun acc x => (acc * 65536 + x)%N) g 0%N)
  | None => None
  end.

Definition parse (s : string) : result ipaddr :=
  if Py.contains "/" s then Raise ValueError
  else match ipv4 s with
       | Some v => Ok {| version := 4; int_value := v |}
       | None =>
           match ipv6 s with
           | Some v => Ok {| version := 6; int_value := v |}
           | None => Raise AddrFormatError
           end
       end.

Definition decimal (n : N) : string := NilEmpty.string_of_uint (N.to_uint n).

Definition dotted (v : N) : string :=
  decimal (v / 16777216 mod 256) ++ "." ++ decimal (v / 65536 mod 256) ++ "."
  ++ decimal (v / 256 mod 256) ++ "." ++ decimal (v mod 256).

Definition hex_char (n : N) : ascii :=
  match String.get (N.to_nat n) "0123456789abcdef" with
  | Some c => c
  | None => "0"%char
  end.

Fixpoint hex_digits (fuel : nat) (n : N) (acc : string) : string :=
  match fuel with
  | O => acc
  | S fuel' =>
      let acc' := String (hex_char (n mod 16)) acc in
      if N.eqb (n / 16) 0 then acc' else hex_digits fuel' (n / 16) acc'
  end.

Definition hex (n : N) : string := hex_digits 4 n EmptyString.

Fixpoint words (count : nat) (v : N) (acc : list N) : list N :=
  match count with
  | O => acc
  | S count' => words count' (v / 65536) ((v mod 65536)%N :: acc)
  end.

Fixpoint zeros_prefix (gs : list N) : nat :=
  match gs with
  | 0%N :: rest => S (zeros_prefix rest)
  | _ => 0
  end.

(** The leftmost longest run of zero groups: where it starts, how long. *)
Fixpoint best_run (gs : list N) (i : nat) : nat * nat :=
  match gs with
  | [] => (0, 0)%nat
  | _ :: rest =>
      let here := zeros_prefix gs in
      let '(start, len) := best_run rest (S i) in
      if Nat.leb len here then (i, here) else (start, len)
  end.

Definition colon_hex (v : N) : string :=
  let gs := words 8 v [] in
  let '(start, len) := best_run gs 0 in
  if Nat.leb 2 len
  then String.concat ":" (map hex (firstn start gs)) ++ "::"
       ++ String.concat ":" (map hex (skipn (start + len) gs))
  else String.concat ":" (map hex gs).

Definition print (a : ipaddr) : string :=
  if N.eqb (version a) 4 then dotted (int_value a) else colon_hex (int_value a).

Definition netaddr : Netaddr := {| IPAddress := parse; ip_str := print |}.

End Textual.

(** [Appliance] is a device that holds at most the one address list the
    module manages. [create] and [modify] store the attributes they are
    given, [load] of a missing resource is an HTTP error, and a device
    whose [stuck] flag is set answers [delete] without deleting. *)

Module Appliance.

Record t : Type := { resource : option attrs; stuck : bool }.

Definition named (l : option (list string)) : option (list Entry) :=
  option_map UsableChanges.entries l.

Definition created (kw : kwargs) : attrs :=
  {| w_addressLists := kw_addressLists kw;
     w_addresses := kw_addresses kw;
     w_description := kw_description kw;
     w_fqdns := named (kw_fqdns kw);
     w_geo := named (kw_geo kw) |}.

Definition keep {A} (new old : option A) : option A :=
  match new with
  | Some _ => new
  | None => old
  end.

Definition modified (kw : kwargs) (a : attrs) : attrs :=
  {| w_addressLists := keep (kw_addressLists kw) (w_addressLists a);
     w_addresses := keep (kw_addresses kw) (w_addresses a);
     w_description := keep (kw_description kw) (w_description a);
     w_fqdns := keep (named (kw_fqdns kw)) (w_fqdns a);
     w_geo := keep (named (kw_geo kw)) (w_geo a) |}.

Definition not_found {A} : result A :=
  Raise (iControlUnexpectedHTTPError "404 Unexpected Error: Not Found").

Definition client : DeviceClient t := {|
  address_list_exists := fun _ _ d =>
    Ok (match resource d with Some _ => true | None => false end);
  address_list_load := fun _ _ d =>
    match resource d with Some a => Ok a | None => not_found end;
  address_list_create := fun _ _ kw d =>
    match resource d with
    | Some _ => Raise (iControlUnexpectedHTTPError "409 Unexpected Error: Conflict")
    | None => Ok {| resource := Some (created kw); stuck := stuck d |}
    end;
  resource_modify := fun _ _ kw d =>
    match resource d with
    | Some a => Ok {| resource := Some (modified kw a); stuck := stuck d |}
    | None => not_found
    end;
  resource_delete := fun _ _ d =>
    match resource d with
    | Some _ => Ok (if stuck d then d else {| resource := None; stuck := stuck d |})
    | None => not_found
    end
|}.

End Appliance.

(** [Unreachable] is a device on which every call ends in an HTTP error. *)

Module Unreachable.

Definition refused {A} : result A :=
  Raise (iControlUnexpectedHTTPError "503 Unexpected Error: Service Unavailable").

Definition client : DeviceClient unit := {|
  address_list_exists := fun _ _ _ => refused;
  address_list_load := fun _ _ _ => refused;
  address_list_create := fun _ _ _ _ => refused;
  resource_modify := fun _ _ _ _ => refused;
  resource_delete := fun _ _ _ => refused
|}.

End Unreachable.

(** A desired state with every option left out. *)
Definition no_params (name : string) (state : string) : params :=
  {| p_name := name; p_partition := "Common"; p_description := None;
     p_addresses := None; p_address_ranges := None; p_address_lists := None;
     p_fqdns := None; p_geo_locations := None; p_state := state |}.

(** ** Vocabulary of the statements *)

(** The message of the one validation error of the range code. *)
Definition mixed_versions : string :=
  "When specifying a range, IP addresses must be of the same type; IPv4 or IPv6.".


(** The updatable fields that hold a collection, and their elements. *)
Definition collections : list Parameters.field :=
  [Parameters.addresses; Parameters.address_ranges; Parameters.address_lists;
   Parameters.fqdns; Parameters.geo_locations].

Definition elements (k : Parameters.field)
  : Parameters.value_of (list string) (list string) k -> list string :=
  match k with
  | Parameters.description => fun s => [s]
  | _ => fun l => l
  end.


(** Ascending in the order of [sorted]. *)
Definition ascending (l : list string) : Prop :=
  Sorted (fun x y => String.leb x y = true) l.

(** A call that leaves the device as it is. *)
Definition read_only (c : call) : Prop :=
  match c with
  | Exists | Load => True
  | Create _ | Modify _ | Delete => False
  end.

(** The hostname rules, as predicates on a host. A label is valid when it
    is 1 to 63 letters, digits or hyphens with no hyphen at either end. *)
Module Rules.







End Rules.

(** The newline character. *)
Definition newline : ascii := "010"%char.

(** The name of an address list in full, as both parameter classes print
    a reference to it. *)
Definition full_path (x : ListRef) : string :=
  "/" ++ ref_partition x ++ "/" ++ ref_name x.

(** A reference whose partition and name hold no ['/']. *)
Definition plain_ref (x : ListRef) : Prop :=
  Py.contains "/" (ref_partition x) = false /\ Py.contains "/" (ref_name x) = false.

(** A geo location with a region of white space only, written without
    the region. *)
Definition blank_region_dropped (x : GeoLocation) : GeoLocation :=
  match region x with
  | Some r =>
      if String.eqb (Py.strip r) "" then {| country := country x; region := None |}
      else x
  | None => x
  end.

(** The name of an entry of the device's address array as the snapshot
    files it: a range is stripped, an address is taken as it is. *)
Definition filed (name : string) : string :=
  if Py.contains "-" name then Py.strip name else name.

(** ** Inputs of the examples *)

Module Examples.

Definition with_geo (l : list GeoLocation) : params :=
  {| p_name := "foo"; p_partition := "Common"; p_description := None;
     p_addresses := None; p_address_ranges := None; p_address_lists := None;
     p_fqdns := None; p_geo_locations := Some l; p_state := "present" |}.

Definition with_ranges (l : list string) : params :=
  {| p_name := "foo"; p_partition := "Common"; p_description := None;
     p_addresses := None; p_address_ranges := Some l; p_address_lists := None;
     p_fqdns := None; p_geo_locations := None; p_state := "present" |}.

Definition with_addresses (l : list string) : params :=
  {| p_name := "foo"; p_partition := "Common"; p_description := None;
     p_addresses := Some l; p_address_ranges := None; p_address_lists := None;
     p_fqdns := None; p_geo_locations := None; p_state := "present" |}.

Definition with_fqdns (l : list string) : params :=
  {| p_name := "foo"; p_partition := "Common"; p_description := None;
     p_addresses := None; p_address_ranges := None; p_address_lists := None;
     p_fqdns := Some l; p_geo_locations := None; p_state := "present" |}.

Definition with_description (d : string) : params :=
  {| p_name := "foo"; p_partition := "Common"; p_description := Some d;
     p_addresses := None; p_address_ranges := None; p_address_lists := None;
     p_fqdns := None; p_geo_locations := None; p_state := "present" |}.

(** The attributes of a resource whose address array holds [names]. *)
Definition holding (names : list string) : attrs :=
  {| w_addressLists := None; w_addresses := Some (UsableChanges.entries names);
     w_description := None; w_fqdns := None; w_geo := None |}.

Definition described (d : string) : attrs :=
  {| w_addressLists := None; w_addresses := None;
     w_description := Some d; w_fqdns := None; w_geo := None |}.

Definition with_address_lists (l : list string) : params :=
  {| p_name := "foo"; p_partition := "Common"; p_description := None;
     p_addresses := None; p_address_ranges := None; p_address_lists := Some l;
     p_fqdns := None; p_geo_locations := None; p_state := "present" |}.

(** The attributes of a resource that refers to the lists [refs]. *)
Definition referring (refs : list ListRef) : attrs :=
  {| w_addressLists := Some refs; w_addresses := None;
     w_description := None; w_fqdns := None; w_geo := None |}.

Definition dry_running (m : params) : ansible_module :=
  {| module_params := m; check_mode := true |}.

Definition running (m : params) : ansible_module :=
  {| module_params := m; check_mode := false |}.

Definition device_with (a : attrs) : Appliance.t :=
  {| Appliance.resource := Some a; Appliance.stuck := false |}.

Definition stuck_device_with (a : attrs) : Appliance.t :=
  {| Appliance.resource := Some a; Appliance.stuck := true |}.

Definition empty_device : Appliance.t :=
  {| Appliance.resource := None; Appliance.stuck := false |}.

Fixpoint letters (n : nat) : string :=
  match n with
  | O => EmptyString
  | S n' => String "a" (letters n')
  end.


End Examples.

(** * Properties *)

(** Closed examples run on the textual addresses and on the appliance. *)
#[local] Existing Instance Textual.netaddr.
#[local] Existing Instance Appliance.client.

(** ** The order of [sorted] *)

Section StringOrder.

Lemma ascii_compare_lt_trans (a b c : ascii) :
  Ascii.compare a b = Lt -> Ascii.compare b c = Lt -> Ascii.compare a c = Lt.
Proof.
  unfold Ascii.compare. rewrite !N.compare_lt_iff. intros; lia.
Qed.

Lemma ascii_compare_refl (c : ascii) : Ascii.compare c c = Eq.
Proof. unfold Ascii.compare. apply N.compare_refl. Qed.

Lemma string_compare_refl (s : string) : String.compare s s = Eq.
Proof.
  induction s as [|c s IH]; simpl; [reflexivity|].
  now rewrite ascii_compare_refl.
Qed.

Lemma string_compare_trans_le (s1 : string) :
  forall s2 s3,
    String.compare s1 s2 <> Gt -> String.compare s2 s3 <> Gt ->
    String.compare s1 s3 <> Gt.
Proof.
  induction s1 as [|a s1 IH]; intros [|b s2] [|c s3]; simpl; try congruence.
  destruct (Ascii.compare a b) eqn:Hab; try congruence;
    destruct (Ascii.compare b c) eqn:Hbc; try congruence; intros H12 H23.
  - apply Ascii.compare_eq_iff in Hab, Hbc. subst.
    rewrite ascii_compare_refl.
    now apply IH with s2.
  - apply Ascii.compare_eq_iff in Hab. subst. now rewrite Hbc.
  - apply Ascii.compare_eq_iff in Hbc. subst. now rewrite Hab.
  - now rewrite (ascii_compare_lt_trans a b c).
Qed.

Lemma leb_le (s1 s2 : string) :
  String.leb s1 s2 = true <-> String.compare s1 s2 <> Gt.
Proof.
  unfold String.leb. destruct (String.compare s1 s2); split; congruence.
Qed.

Lemma leb_trans (s1 s2 s3 : string) :
  String.leb s1 s2 = true -> String.leb s2 s3 = true -> String.leb s1 s3 = true.
Proof. rewrite !leb_le. apply string_compare_trans_le. Qed.

Lemma leb_false_le (s1 s2 : string) :
  String.leb s1 s2 = false -> String.leb s2 s1 = true.
Proof.
  intros H. destruct (String.leb_total s1 s2) as [H'|H']; congruence.
Qed.

End StringOrder.

(** ** Sorting *)

Section Sorting.

Lemma insort_perm (x : string) (l : list string) :
  Permutation (Py.insort x l) (x :: l).
Proof.
  induction l as [|y l IH]; simpl; [reflexivity|].
  destruct (String.leb x y); [reflexivity|].
  rewrite IH. apply perm_swap.
Qed.

Lemma sorted_perm (l : list string) : Permutation (Py.sorted l) l.
Proof.
  induction l as [|x l IH]; simpl; [reflexivity|].
  rewrite insort_perm. now constructor.
Qed.

Lemma insort_ascending (x : string) (l : list string) :
  ascending l -> ascending (Py.insort x l).
Proof.
  unfold ascending. induction l as [|y l IH]; simpl; intros Hs.
  - repeat constructor.
  - destruct (String.leb x y) eqn:Hxy.
    + constructor; [assumption | now constructor].
    + inversion Hs as [|? ? Hl Hhd]; subst.
      constructor; [now apply IH|].
      destruct l as [|z l]; simpl.
      * constructor. now apply leb_false_le.
      * destruct (String.leb x z); constructor.
        -- now apply leb_false_le.
        -- now inversion Hhd.
Qed.

Lemma sorted_ascending (l : list string) : ascending (Py.sorted l).
Proof.
  induction l as [|x l IH]; simpl; [constructor | now apply insort_ascending].
Qed.

Lemma insort_comm (x y : string) (l : list string) :
  Py.insort x (Py.insort y l) = Py.insort y (Py.insort x l).
Proof.
  induction l as [|z l IH]; simpl.
  - destruct (String.leb x y) eqn:Hxy, (String.leb y x) eqn:Hyx; try reflexivity.
    + now rewrite (String.leb_antisym _ _ Hxy Hyx).
    + apply leb_false_le in Hxy. congruence.
  - destruct (String.leb y z) eqn:Hyz, (String.leb x z) eqn:Hxz; simpl;
      rewrite ?Hyz, ?Hxz.
    + destruct (String.leb x y) eqn:Hxy, (String.leb y x) eqn:Hyx; try reflexivity.
      * now rewrite (String.leb_antisym _ _ Hxy Hyx).
      * apply leb_false_le in Hxy. congruence.
    + assert (Hxy : String.leb x y = false).
      { destruct (String.leb x y) eqn:E; [|reflexivity].
        now rewrite (leb_trans _ _ _ E Hyz) in Hxz. }
      now rewrite Hxy.
    + assert (Hyx : String.leb y x = false).
      { destruct (String.leb y x) eqn:E; [|reflexivity].
        now rewrite (leb_trans _ _ _ E Hxz) in Hyz. }
      now rewrite Hyx.
    + now rewrite IH.
Qed.

Lemma sorted_of_perm (l1 l2 : list string) :
  Permutation l1 l2 -> Py.sorted l1 = Py.sorted l2.
Proof.
  induction 1; simpl; try congruence. apply insort_comm.
Qed.

(** Sorted lists are equal exactly when the lists are rearrangements of
    each other. *)
Lemma sorted_eq_iff (l1 l2 : list string) :
  Py.sorted l1 = Py.sorted l2 <-> Permutation l1 l2.
Proof.
  split; [|apply sorted_of_perm].
  intros H. rewrite <- (sorted_perm l1), <- (sorted_perm l2). now rewrite H.
Qed.

Lemma list_ne_false (a b : list string) : Py.list_ne a b = false <-> a = b.
Proof.
  unfold Py.list_ne. destruct (list_eq_dec string_dec a b); split; congruence.
Qed.

Lemma list_ne_true (a b : list string) : Py.list_ne a b = true <-> a <> b.
Proof.
  unfold Py.list_ne. destruct (list_eq_dec string_dec a b); split; congruence.
Qed.

Lemma sorted_idem (l : list string) : Py.sorted (Py.sorted l) = Py.sorted l.
Proof. apply sorted_of_perm, sorted_perm. Qed.

End Sorting.

(** ** Splitting and searching *)

Section Strings.

Lemma split_without (sep : ascii) (s : string) :
  Py.contains sep s = false -> Py.split sep s = [s].
Proof.
  induction s as [|c s IH]; simpl; [reflexivity|].
  destruct (Ascii.eqb c sep); simpl; [discriminate|].
  intros H. now rewrite (IH H).
Qed.

Lemma split_app (sep : ascii) (a b : string) :
  Py.contains sep a = false ->
  Py.split sep (a ++ String sep b) = a :: Py.split sep b.
Proof.
  induction a as [|c a IH]; simpl.
  - now rewrite Ascii.eqb_refl.
  - destruct (Ascii.eqb c sep); simpl; [discriminate|].
    intros H. now rewrite (IH H).
Qed.

Lemma split_pair (sep : ascii) (a b : string) :
  Py.contains sep a = false -> Py.contains sep b = false ->
  Py.split sep (a ++ String sep b) = [a; b].
Proof.
  intros Ha Hb. now rewrite split_app, split_without.
Qed.

Lemma map_filter_names (f : string -> string) (p : string -> bool) (l : list Entry) :
  map (fun e => f (entry_name e)) (filter (fun e => p (entry_name e)) l)
  = map f (filter p (map entry_name l)).
Proof.
  induction l as [|e l IH]; simpl; [reflexivity|].
  destruct (p (entry_name e)); simpl; now rewrite IH.
Qed.

Lemma for_each_app {A B} (body : A -> result B) (l1 l2 : list A) (items : list B) :
  for_each body l1 = Ok items ->
  for_each body (l1 ++ l2)%list
  = rbind (for_each body l2) (fun rest => Ok (items ++ rest)%list).
Proof.
  revert items. induction l1 as [|x l1 IH]; simpl; intros items H.
  - injection H as <-. destruct (for_each body l2); reflexivity.
  - destruct (body x) as [b|e]; simpl in *; [|discriminate].
    destruct (for_each body l1) as [bs|e]; simpl in *; [|discriminate].
    injection H as <-. rewrite (IH bs eq_refl).
    destruct (for_each body l2); reflexivity.
Qed.

(** The loop leaves with the exception of the first element that raises. *)
Lemma for_each_first_raise {A B} (body : A -> result B)
      (l1 : list A) (x : A) (l2 : list A) (items : list B) (e : exn) :
  for_each body l1 = Ok items -> body x = Raise e ->
  for_each body (l1 ++ x :: l2)%list = Raise e.
Proof.
  intros H1 Hx. rewrite (for_each_app _ _ _ _ H1). simpl. now rewrite Hx.
Qed.

End Strings.

(** ** Geo locations *)

(** C1 (as the code has it). The country of a geo location goes into the
    canonical entry as it was given: a full country name is not resolved
    through [country_iso_map], although the table maps ["United States"]
    to ["US"]; so country ["US"] and country ["United States"] yield
    different entries. *)
Theorem geo_locations_country_name_unresolved :
  In ("United States", "US") ModuleParameters.country_iso_map
  /\ ModuleParameters.geo_locations
       (Examples.with_geo [{| country := "US"; region := None |}])
     = Some ["US"]
  /\ ModuleParameters.geo_locations
       (Examples.with_geo [{| country := "United States"; region := None |}])
     = Some ["United States"].
Proof.
  split; [|split]; [|reflexivity|reflexivity].
  unfold ModuleParameters.country_iso_map.
  repeat (first [left; reflexivity | right]).
Qed.

(** ** Address ranges *)

Section Ranges.
Context {netaddr : Netaddr}.

Lemma range_item_parsed (r start stop : string) (ia ib : ipaddr) :
  Py.split "-" r = [start; stop] ->
  IPAddress (Py.strip start) = Ok ia -> IPAddress (Py.strip stop) = Ok ib ->
  ModuleParameters.range_item r
  = if negb (N.eqb (version ia) (version ib))
    then Raise (F5ModuleError mixed_versions)
    else if ip_gt ia ib then Ok (ip_str ib ++ "-" ++ ip_str ia)
         else Ok (ip_str ia ++ "-" ++ ip_str ib).
Proof.
  intros Hs Ha Hb. unfold ModuleParameters.range_item.
  rewrite Hs. simpl. rewrite Ha. simpl. rewrite Hb. simpl.
  destruct (negb (N.eqb (version ia) (version ib))); [reflexivity|].
  now destruct (ip_gt ia ib).
Qed.

Lemma ip_gt_same_version (a b : ipaddr) :
  version a = version b -> ip_gt a b = N.ltb (int_value b) (int_value a).
Proof.
  intros H. unfold ip_gt. rewrite H, N.ltb_irrefl, N.eqb_refl. reflexivity.
Qed.

Lemma ipaddr_eq (a b : ipaddr) :
  version a = version b -> int_value a = int_value b -> a = b.
Proof. destruct a, b; simpl; congruence. Qed.

Lemma address_ranges_single (self : params) (r item : string) :
  p_address_ranges self = Some [r] ->
  ModuleParameters.range_item r = Ok item ->
  ModuleParameters.address_ranges self = Ok (Some [item]).
Proof.
  intros Hr Hi. unfold ModuleParameters.address_ranges.
  rewrite Hr. simpl. now rewrite Hi.
Qed.

End Ranges.

(** C6. Canonicalizing a range does not depend on the order of its
    endpoints: for addresses [a] and [b] of one version, the ranges
    ["a-b"] and ["b-a"] both canonicalize to the same ["start-stop"],
    where [start] is the numerically smaller address. *)
Theorem range_order_independent {netaddr : Netaddr}
        (self1 self2 : params) (a b : string) (ia ib : ipaddr) :
  Py.contains "-" a = false -> Py.contains "-" b = false ->
  IPAddress (Py.strip a) = Ok ia -> IPAddress (Py.strip b) = Ok ib ->
  version ia = version ib ->
  p_address_ranges self1 = Some [a ++ "-" ++ b] ->
  p_address_ranges self2 = Some [b ++ "-" ++ a] ->
  exists start stop : ipaddr,
    ((start = ia /\ stop = ib) \/ (start = ib /\ stop = ia))
    /\ (int_value start <= int_value stop)%N
    /\ ModuleParameters.address_ranges self1
       = Ok (Some [ip_str start ++ "-" ++ ip_str stop])
    /\ ModuleParameters.address_ranges self2
       = Ok (Some [ip_str start ++ "-" ++ ip_str stop]).
Proof.
  intros Ha Hb Pa Pb Hv H1 H2.
  pose proof (range_item_parsed _ _ _ _ _ (split_pair "-" a b Ha Hb) Pa Pb) as Eab.
  pose proof (range_item_parsed _ _ _ _ _ (split_pair "-" b a Hb Ha) Pb Pa) as Eba.
  rewrite Hv, N.eqb_refl in Eab. rewrite <- Hv, N.eqb_refl in Eba.
  simpl in Eab, Eba.
  rewrite (ip_gt_same_version ia ib Hv) in Eab.
  rewrite (ip_gt_same_version ib ia (eq_sym Hv)) in Eba.
  destruct (N.ltb_spec (int_value ib) (int_value ia)) as [Hlt|Hle].
  - (* b is the smaller one *)
    destruct (N.ltb_spec (int_value ia) (int_value ib)) as [Hlt'|_]; [lia|].
    exists ib, ia. repeat split; [now right | lia | |].
    + now apply address_ranges_single with (1 := H1).
    + now apply address_ranges_single with (1 := H2).
  - destruct (N.ltb_spec (int_value ia) (int_value ib)) as [Hlt'|Hle'].
    + exists ia, ib. repeat split; [now left | lia | |].
      * now apply address_ranges_single with (1 := H1).
      * now apply address_ranges_single with (1 := H2).
    + (* equal values: one and the same address *)
      assert (ia = ib) as <- by (apply ipaddr_eq; [assumption | lia]).
      exists ia, ia. repeat split; [now left | lia | |].
      * now apply address_ranges_single with (1 := H1).
      * now apply address_ranges_single with (1 := H2).
Qed.

Lemma range_order_independent_witness :
  exists start stop : ipaddr,
    ((start = {| version := 4; int_value := 33686018 |}
      /\ stop = {| version := 4; int_value := 16843009 |})
     \/ (start = {| version := 4; int_value := 16843009 |}
         /\ stop = {| version := 4; int_value := 33686018 |}))
    /\ (int_value start <= int_value stop)%N
    /\ ModuleParameters.address_ranges (Examples.with_ranges ["2.2.2.2-1.1.1.1"])
       = Ok (Some [ip_str start ++ "-" ++ ip_str stop])
    /\ ModuleParameters.address_ranges (Examples.with_ranges ["1.1.1.1-2.2.2.2"])
       = Ok (Some [ip_str start ++ "-" ++ ip_str stop]).
Proof.
  apply (range_order_independent
           (Examples.with_ranges ["2.2.2.2-1.1.1.1"])
           (Examples.with_ranges ["1.1.1.1-2.2.2.2"])
           "2.2.2.2" "1.1.1.1"); reflexivity.
Defined.

(** The two ranges of the specification, run on the textual instance. *)
Example range_order_example :
  ModuleParameters.address_ranges (Examples.with_ranges ["2.2.2.2-1.1.1.1"])
  = Ok (Some ["1.1.1.1-2.2.2.2"])
  /\ ModuleParameters.address_ranges (Examples.with_ranges ["1.1.1.1-2.2.2.2"])
     = Ok (Some ["1.1.1.1-2.2.2.2"]).
Proof. split; reflexivity. Qed.

(** C10. The exceptions that leave the canonicalization of
    [address_ranges]. At the first entry that does not go through: an
    entry that does not split into exactly two parts raises [ValueError];
    an endpoint the library refuses raises the library's own exception,
    unchanged; only endpoints of different versions raise the module's
    [F5ModuleError]; and endpoints of one version raise nothing. *)
Theorem address_ranges_exceptions {netaddr : Netaddr} (self : params)
        (l1 : list string) (r : string) (l2 : list string) (items : list string) :
  p_address_ranges self = Some (l1 ++ r :: l2)%list ->
  for_each ModuleParameters.range_item l1 = Ok items ->
  match Py.split "-" r with
  | [start; stop] =>
      match IPAddress (Py.strip start), IPAddress (Py.strip stop) with
      | Raise e, _ => ModuleParameters.address_ranges self = Raise e
      | Ok _, Raise e => ModuleParameters.address_ranges self = Raise e
      | Ok ia, Ok ib =>
          if N.eqb (version ia) (version ib)
          then exists item, ModuleParameters.range_item r = Ok item
          else ModuleParameters.address_ranges self
               = Raise (F5ModuleError mixed_versions)
      end
  | _ => ModuleParameters.address_ranges self = Raise ValueError
  end.
Proof.
  intros Hr H1.
  assert (Hraise : forall e, ModuleParameters.range_item r = Raise e ->
                        ModuleParameters.address_ranges self = Raise e).
  { intros e He. unfold ModuleParameters.address_ranges. rewrite Hr.
    now rewrite (for_each_first_raise _ _ _ l2 _ _ H1 He). }
  destruct (Py.split "-" r) as [|start [|stop [|extra parts]]] eqn:Hs;
    try (apply Hraise; unfold ModuleParameters.range_item; now rewrite Hs).
  destruct (IPAddress (Py.strip start)) as [ia|e] eqn:Pa.
  - destruct (IPAddress (Py.strip stop)) as [ib|e] eqn:Pb.
    + pose proof (range_item_parsed r start stop ia ib Hs Pa Pb) as E.
      destruct (N.eqb (version ia) (version ib)); simpl in E.
      * destruct (ip_gt ia ib); eexists; exact E.
      * now apply Hraise.
    + apply Hraise. unfold ModuleParameters.range_item.
      rewrite Hs. simpl. rewrite Pa. simpl. now rewrite Pb.
  - apply Hraise. unfold ModuleParameters.range_item.
    rewrite Hs. simpl. now rewrite Pa.
Qed.

(** Entries without a separator, with two separators, and with endpoints
    that are no addresses, on the textual instance. *)
Lemma address_ranges_exceptions_witness :
  ModuleParameters.address_ranges (Examples.with_ranges ["1.1.1.1"])
  = Raise ValueError
  /\ ModuleParameters.address_ranges (Examples.with_ranges ["1.1.1.1-2.2.2.2-3.3.3.3"])
     = Raise ValueError
  /\ ModuleParameters.address_ranges
       (Examples.with_ranges ["1.1.1.1-2.2.2.2"; "first-last"])
     = Raise AddrFormatError
  /\ ModuleParameters.address_ranges
       (Examples.with_ranges ["1.1.1.1-2.2.2.2"; "1.1.1.1-::1"])
     = Raise (F5ModuleError mixed_versions).
Proof.
  split; [|split; [|split]].
  - exact (address_ranges_exceptions
             (Examples.with_ranges ["1.1.1.1"]) [] "1.1.1.1" [] []
             eq_refl eq_refl).
  - exact (address_ranges_exceptions
             (Examples.with_ranges ["1.1.1.1-2.2.2.2-3.3.3.3"])
             [] "1.1.1.1-2.2.2.2-3.3.3.3" [] [] eq_refl eq_refl).
  - exact (address_ranges_exceptions
             (Examples.with_ranges ["1.1.1.1-2.2.2.2"; "first-last"])
             ["1.1.1.1-2.2.2.2"] "first-last" [] ["1.1.1.1-2.2.2.2"]
             eq_refl eq_refl).
  - exact (address_ranges_exceptions
             (Examples.with_ranges ["1.1.1.1-2.2.2.2"; "1.1.1.1-::1"])
             ["1.1.1.1-2.2.2.2"] "1.1.1.1-::1" [] ["1.1.1.1-2.2.2.2"]
             eq_refl eq_refl).
Defined.

(** ** The snapshot of the device *)

(** C2 (as the code has it). From the device's address array the
    snapshot keeps the names that contain a ['-'], strips the white space
    around each and sorts them as strings. It always yields a list: the
    endpoints are not parsed, so nothing is validated or reordered. *)
Theorem api_address_ranges_verbatim (self : attrs) (l : list Entry) :
  w_addresses self = Some l ->
  exists ranges : list string,
    ApiParameters.address_ranges self = Some ranges
    /\ ascending ranges
    /\ Permutation ranges
         (map Py.strip (filter (Py.contains "-") (map entry_name l))).
Proof.
  intros H. unfold ApiParameters.address_ranges. rewrite H.
  eexists. split; [reflexivity|]. split.
  - apply sorted_ascending.
  - rewrite (map_filter_names Py.strip (Py.contains "-")). apply sorted_perm.
Qed.

Lemma api_address_ranges_verbatim_witness :
  exists ranges : list string,
    ApiParameters.address_ranges
      (Examples.holding ["9.9.9.9"; " 3.3.3.3-4.4.4.4"; "2.2.2.2-1.1.1.1"])
    = Some ranges
    /\ ascending ranges
    /\ Permutation ranges
         (map Py.strip
            (filter (Py.contains "-")
               (map entry_name
                  (UsableChanges.entries
                     ["9.9.9.9"; " 3.3.3.3-4.4.4.4"; "2.2.2.2-1.1.1.1"])))).
Proof.
  apply (api_address_ranges_verbatim
           (Examples.holding ["9.9.9.9"; " 3.3.3.3-4.4.4.4"; "2.2.2.2-1.1.1.1"])).
  reflexivity.
Defined.

(** C2 (as stated) fails: a reversed range on the device is kept reversed
    by the snapshot and swapped by the canonicalizer, and a range of mixed
    versions is kept by the snapshot and refused by the canonicalizer. *)
Lemma api_address_ranges_not_renormalized :
  ApiParameters.address_ranges (Examples.holding ["2.2.2.2-1.1.1.1"])
  = Some ["2.2.2.2-1.1.1.1"]
  /\ ModuleParameters.address_ranges (Examples.with_ranges ["2.2.2.2-1.1.1.1"])
     = Ok (Some ["1.1.1.1-2.2.2.2"])
  /\ ApiParameters.address_ranges (Examples.holding ["1.1.1.1-::1"])
     = Some ["1.1.1.1-::1"]
  /\ ModuleParameters.address_ranges (Examples.with_ranges ["1.1.1.1-::1"])
     = Raise (F5ModuleError mixed_versions).
Proof. repeat split. Qed.

(** ** The differ *)

Section Differ.
Context {netaddr : Netaddr}.

Lemma sorted_difference_present (w h : list string) :
  (Difference.sorted_difference (Ok (Some w)) (Some h) = Ok None
   /\ Permutation w h)
  \/ (Difference.sorted_difference (Ok (Some w)) (Some h) = Ok (Some w)
      /\ ~ Permutation w h).
Proof.
  unfold Difference.sorted_difference. simpl.
  destruct (Py.list_ne (Py.sorted w) (Py.sorted h)) eqn:E.
  - right. split; [reflexivity|].
    apply list_ne_true in E. now rewrite <- sorted_eq_iff.
  - left. split; [reflexivity|].
    apply list_ne_false in E. now rewrite <- sorted_eq_iff.
Qed.

Lemma sorted_eq_perm (w h w' h' : list string) :
  w = Py.sorted w' -> h = Py.sorted h' -> (w = h <-> Permutation w h).
Proof.
  intros -> ->. rewrite <- sorted_eq_iff, !sorted_idem. reflexivity.
Qed.

End Differ.

(** C4 (as the code has it). For a collection field that both the desired
    and the live state hold, the differ compares the sorted lists: it
    reports no change exactly when the two collections hold the same
    elements the same number of times, in whatever order; otherwise it
    reports the whole desired collection. *)
Theorem compare_collections {netaddr : Netaddr} (want : params) (have : attrs)
        (k : Parameters.field)
        (w h : Parameters.value_of (list string) (list string) k) :
  In k collections ->
  ModuleParameters.getattr k want = Ok (Some w) ->
  ApiParameters.getattr k have = Some h ->
  (Difference.compare want have k = Ok None
   /\ Permutation (elements k w) (elements k h))
  \/ (Difference.compare want have k = Ok (Some w)
      /\ ~ Permutation (elements k w) (elements k h)).
Proof.
  intros Hk Hw Hh.
  destruct k; simpl in *;
    try (unfold Difference.addresses, Difference.address_ranges,
           Difference.address_lists, Difference.fqdns;
         first [rewrite Hw | injection Hw as Hw; rewrite Hw];
         rewrite Hh; apply sorted_difference_present).
  - (* description is no collection *)
    intuition discriminate.
  - (* geo_locations goes through __default *)
    unfold Difference.__default. simpl. rewrite Hh.
    injection Hw as Hw. rewrite Hw. simpl.
    assert (Hiff : w = h <-> Permutation w h).
    { unfold ModuleParameters.geo_locations in Hw.
      unfold ApiParameters.geo_locations in Hh.
      destruct (p_geo_locations want); [|discriminate].
      destruct (w_geo have); [|discriminate].
      injection Hw as Hw. injection Hh as Hh.
      eapply sorted_eq_perm; symmetry; eassumption. }
    destruct (Py.list_ne w h) eqn:E.
    + right. split; [reflexivity|]. apply list_ne_true in E. tauto.
    + left. split; [reflexivity|]. apply list_ne_false in E. tauto.
Qed.

Lemma compare_collections_witness :
  (Difference.compare (Examples.with_addresses ["1.1.1.1"; "2.2.2.2"])
     (Examples.holding ["2.2.2.2"; "1.1.1.1"]) Parameters.addresses = Ok None
   /\ Permutation ["1.1.1.1"; "2.2.2.2"] ["1.1.1.1"; "2.2.2.2"])
  \/ (Difference.compare (Examples.with_addresses ["1.1.1.1"; "2.2.2.2"])
        (Examples.holding ["2.2.2.2"; "1.1.1.1"]) Parameters.addresses
      = Ok (Some ["1.1.1.1"; "2.2.2.2"])
      /\ ~ Permutation ["1.1.1.1"; "2.2.2.2"] ["1.1.1.1"; "2.2.2.2"]).
Proof.
  apply (compare_collections
           (Examples.with_addresses ["1.1.1.1"; "2.2.2.2"])
           (Examples.holding ["2.2.2.2"; "1.1.1.1"])
           Parameters.addresses ["1.1.1.1"; "2.2.2.2"] ["1.1.1.1"; "2.2.2.2"]).
  - simpl. tauto.
  - reflexivity.
  - reflexivity.
Defined.

(** The two comparisons of the specification. *)
Example compare_same_set_other_order :
  Difference.compare (Examples.with_addresses ["1.1.1.1"; "2.2.2.2"])
    (Examples.holding ["2.2.2.2"; "1.1.1.1"]) Parameters.addresses = Ok None.
Proof. reflexivity. Qed.

Example compare_full_replace :
  Difference.compare (Examples.with_addresses ["1.1.1.1"])
    (Examples.holding ["1.1.1.1"; "2.2.2.2"]) Parameters.addresses
  = Ok (Some ["1.1.1.1"]).
Proof. reflexivity. Qed.

(** C4 (as stated) fails: the comparison counts repetitions. A desired
    list that repeats an address holds the same set of elements as the
    live list, and still a change is reported. *)
Lemma compare_counts_repetitions :
  ModuleParameters.addresses (Examples.with_addresses ["1.1.1.1"; "1.1.1.1"])
  = Ok (Some ["1.1.1.1"; "1.1.1.1"])
  /\ ApiParameters.addresses (Examples.holding ["1.1.1.1"]) = Some ["1.1.1.1"]
  /\ (forall x, In x ["1.1.1.1"; "1.1.1.1"] <-> In x ["1.1.1.1"])
  /\ Difference.compare (Examples.with_addresses ["1.1.1.1"; "1.1.1.1"])
       (Examples.holding ["1.1.1.1"]) Parameters.addresses
     = Ok (Some ["1.1.1.1"; "1.1.1.1"]).
Proof.
  split; [reflexivity|]. split; [reflexivity|]. split; [|reflexivity].
  intros x. simpl. tauto.
Qed.

(** ** Hostnames *)

Section Hostnames.








Lemma contains_split (c sep : ascii) (s : string) :
  Py.contains c s = false ->
  forall x, In x (Py.split sep s) -> Py.contains c x = false.
Proof.
  induction s as [|d s IH]; simpl.
  - intros _ x [<-|[]]. reflexivity.
  - intros H. apply orb_false_elim in H as [Hd Hs]. specialize (IH Hs).
    destruct (Ascii.eqb d sep).
    + intros x [<-|Hin]; [reflexivity | now apply IH].
    + destruct (Py.split sep s) as [|part parts].
      * intros x [<-|[]]. simpl. now rewrite Hd.
      * intros x [<-|Hin].
        -- simpl. rewrite Hd. apply IH. now left.
        -- apply IH. now right.
Qed.



Lemma fqdns_first_invalid (self : params) (l : list string) :
  p_fqdns self = Some l ->
  ModuleParameters.fqdns self
  = match find (fun x => negb (ModuleParameters.is_valid_hostname x)) l with
    | Some x => Raise (F5ModuleError ("The hostname '" ++ x ++ "' looks invalid."))
    | None => Ok (Some (Py.sorted l))
    end.
Proof.
  intros H. unfold ModuleParameters.fqdns. rewrite H. clear H.
  set (body := fun x : string => if ModuleParameters.is_valid_hostname x then Ok x
                    else Raise (F5ModuleError ("The hostname '" ++ x ++ "' looks invalid."))).
  assert (E : for_each body l
              = match find (fun x => negb (ModuleParameters.is_valid_hostname x)) l with
                | Some x => Raise (F5ModuleError ("The hostname '" ++ x ++ "' looks invalid."))
                | None => Ok l
                end).
  { induction l as [|x l IH]; simpl; [reflexivity|].
    unfold body at 1. destruct (ModuleParameters.is_valid_hostname x); simpl; [|reflexivity].
    rewrite IH. now destruct (find _ l). }
  rewrite E. now destruct (find _ l).
Qed.


End Hostnames.



(** The hostnames of the specification. *)
Example hostname_examples :
  ModuleParameters.is_valid_hostname "-bad.example.com" = false
  /\ ModuleParameters.is_valid_hostname "good.example.com" = true
  /\ ModuleParameters.is_valid_hostname (Examples.letters 256) = false
  /\ ModuleParameters.fqdns (Examples.with_fqdns ["-bad.example.com"])
     = Raise (F5ModuleError "The hostname '-bad.example.com' looks invalid.")
  /\ ModuleParameters.fqdns (Examples.with_fqdns ["good.example.com"])
     = Ok (Some ["good.example.com"]).
Proof. repeat split; vm_compute; reflexivity. Qed.


(** ** The life cycle *)

Section LifeCycle.
Context {netaddr : Netaddr} {D : Type} {client : DeviceClient D}.

(** A change-set without addresses and ranges is reported as nothing:
    [ReportableChanges.addresses] iterates over [None], and [to_return]
    swallows the [TypeError] together with every later field. *)
Lemma nothing_reported_without_addresses (changes : UsableChanges.self_t) :
  Parameters.v_addresses changes = None ->
  Parameters.v_address_ranges changes = None ->
  ReportableChanges.to_return (UsableChanges.to_return changes) = Parameters.empty.
Proof.
  destruct changes as [a r al d f g]. simpl. intros -> ->.
  unfold UsableChanges.to_return, Parameters.to_return. simpl.
  destruct (UsableChanges.address_lists _); reflexivity.
Qed.

Lemma get_set_other {A L} (k k' : Parameters.field)
      (v : option (Parameters.value_of A L k')) (d : Parameters.values A L) :
  k <> k' -> Parameters.get k (Parameters.set k' v d) = Parameters.get k d.
Proof. destruct k, k'; intros H; try reflexivity; now elim H. Qed.



End LifeCycle.

(** C9. With state [absent], outside check mode, on a device where the
    resource exists and the calls answer: the resource is loaded and
    deleted, then the existence check is made again; when it still finds
    the resource the module fails with "Failed to delete the resource.",
    otherwise it reports a change. *)
Theorem absent_deletes_then_checks
        {netaddr : Netaddr} {D : Type} {client : DeviceClient D}
        (module : ansible_module) (dev dev' : D) (a : attrs) (still : bool) :
  let want := module_params module in
  p_state want = "absent" ->
  check_mode module = false ->
  address_list_exists (p_name want) (p_partition want) dev = Ok true ->
  address_list_load (p_name want) (p_partition want) dev = Ok a ->
  resource_delete (p_name want) (p_partition want) dev = Ok dev' ->
  address_list_exists (p_name want) (p_partition want) dev' = Ok still ->
  ModuleManager.exec_module module (ModuleManager.init dev)
  = (if still
     then Raise (F5ModuleError "Failed to delete the resource.")
     else Ok {| ModuleManager.reported := Parameters.empty;
                ModuleManager.changed := true |},
     {| ModuleManager.device := dev';
        ModuleManager.calls := [Exists; Load; Delete; Exists];
        ModuleManager.have := no_attrs;
        ModuleManager.changes := Parameters.empty |}).
Proof.
  intros want Hstate Hcheck Hexists Hload Hdelete Hstill.
  unfold ModuleManager.exec_module, ModuleManager.want.
  fold want. rewrite Hstate. cbn [String.eqb Ascii.eqb Bool.eqb].
  unfold ModuleManager.absent, ModuleManager.remove, ModuleManager.remove_from_device,
    ModuleManager.exists_, ModuleManager.wrap_http, ModuleManager.bind,
    ModuleManager.query, ModuleManager.command, ModuleManager.record_call,
    ModuleManager.init, ModuleManager.want, ModuleManager.get_changes,
    ModuleManager.raise, ModuleManager.ret.
  fold want. cbn [ModuleManager.device ModuleManager.calls ModuleManager.have
                  ModuleManager.changes app].
  rewrite Hexists, Hcheck. cbn [ModuleManager.device ModuleManager.calls app].
  rewrite Hload. cbn [ModuleManager.device ModuleManager.calls app].
  rewrite Hdelete. cbn [ModuleManager.device ModuleManager.calls app].
  rewrite Hstill. destruct still; reflexivity.
Qed.

Lemma absent_deletes_then_checks_witness :
  ModuleManager.exec_module (Examples.running (no_params "foo" "absent"))
    (ModuleManager.init (Examples.device_with (Examples.holding ["9.9.9.9"])))
  = (Ok {| ModuleManager.reported := Parameters.empty;
           ModuleManager.changed := true |},
     {| ModuleManager.device := Examples.empty_device;
        ModuleManager.calls := [Exists; Load; Delete; Exists];
        ModuleManager.have := no_attrs;
        ModuleManager.changes := Parameters.empty |}).
Proof.
  exact (absent_deletes_then_checks
           (Examples.running (no_params "foo" "absent"))
           (Examples.device_with (Examples.holding ["9.9.9.9"]))
           Examples.empty_device (Examples.holding ["9.9.9.9"]) false
           eq_refl eq_refl eq_refl eq_refl eq_refl eq_refl).
Defined.

(** A device that answers [delete] and keeps the resource. *)
Example absent_deletion_failed :
  fst (ModuleManager.exec_module (Examples.running (no_params "foo" "absent"))
         (ModuleManager.init
            (Examples.stuck_device_with (Examples.holding ["9.9.9.9"]))))
  = Raise (F5ModuleError "Failed to delete the resource.").
Proof. reflexivity. Qed.

Section Validation.
Context {netaddr : Netaddr} {D : Type} {client : DeviceClient D}.






End Validation.




(** A range that does not split in two leaves [exec_module] as the
    [ValueError] it is: only HTTP errors are wrapped there. *)
Example malformed_range_is_not_wrapped :
  fst (ModuleManager.exec_module
         (Examples.running (Examples.with_ranges ["1.1.1.1"]))
         (ModuleManager.init Examples.empty_device))
  = Raise ValueError.
Proof. reflexivity. Qed.

(** ** Fields the user left out *)

Section Unset.
Context {netaddr : Netaddr}.



End Unset.




(** ** The report *)

(** C3 (as the code has it). An update that changes the description
    alone goes to the device, and the module returns [changed] without the
    new description: the report is empty. *)
Theorem changed_description_is_not_reported :
  let module := Examples.running (Examples.with_description "new") in
  let run := ModuleManager.exec_module module
               (ModuleManager.init
                  (Examples.device_with (Examples.described "old"))) in
  fst run = Ok {| ModuleManager.reported := Parameters.empty;
                  ModuleManager.changed := true |}
  /\ Parameters.v_description (ModuleManager.changes (snd run)) = Some "new"
  /\ ModuleManager.device (snd run)
     = Examples.device_with (Examples.described "new").
Proof. repeat split. Qed.

(** Changed addresses are reported, together with a list of ranges that
    did not change, and nothing after them. *)
Example changed_addresses_report :
  fst (ModuleManager.exec_module
         (Examples.running (Examples.with_addresses ["1.1.1.1"]))
         (ModuleManager.init
            (Examples.device_with (Examples.holding ["2.2.2.2"]))))
  = Ok {| ModuleManager.reported :=
            {| Parameters.v_addresses := Some ["1.1.1.1"];
               Parameters.v_address_ranges := Some [];
               Parameters.v_address_lists := None;
               Parameters.v_description := None;
               Parameters.v_fqdns := None;
               Parameters.v_geo_locations := None |};
          ModuleManager.changed := true |}.
Proof. reflexivity. Qed.

(** * Further properties of the code *)

(** ** Canonical addresses *)

Section Addresses.
Context {netaddr : Netaddr}.

Lemma for_each_all_ok {A B} (body : A -> result B) (l : list A) :
  (forall x, In x l -> exists b, body x = Ok b) ->
  exists items, for_each body l = Ok items.
Proof.
  induction l as [|x l IH]; simpl; intros H; [now exists []|].
  destruct (H x (or_introl eq_refl)) as [b ->]. simpl.
  destruct IH as [items ->]; [intros y Hy; apply H; now right|].
  simpl. now eexists.
Qed.

End Addresses.

(** X1. Addresses that the library accepts are kept as they were typed
    and sorted as strings: nothing is rewritten, nothing is dropped. *)
Theorem addresses_kept_and_sorted {netaddr : Netaddr}
        (self : params) (l : list string) :
  p_addresses self = Some l ->
  (forall x, In x l -> exists a, IPAddress x = Ok a) ->
  ModuleParameters.addresses self = Ok (Some (Py.sorted l))
  /\ ascending (Py.sorted l) /\ Permutation (Py.sorted l) l.
Proof.
  intros Hl Hok. split; [|split; [apply sorted_ascending | apply sorted_perm]].
  unfold ModuleParameters.addresses. rewrite Hl.
  destruct (for_each_all_ok
              (fun x => match IPAddress x with
                        | Ok _ => Ok tt
                        | Raise AddrFormatError =>
                            Raise (F5ModuleError
                              ("Address " ++ x ++ " must be either an IPv4 or IPv6 address"))
                        | Raise e => Raise e
                        end) l) as [items ->]; [|reflexivity].
  intros x Hx. destruct (Hok x Hx) as [a ->]. now exists tt.
Qed.

Lemma addresses_kept_and_sorted_witness :
  ModuleParameters.addresses (Examples.with_addresses ["5.5.5.5"; "::1"; "10.0.0.1"])
  = Ok (Some (Py.sorted ["5.5.5.5"; "::1"; "10.0.0.1"]))
  /\ ascending (Py.sorted ["5.5.5.5"; "::1"; "10.0.0.1"])
  /\ Permutation (Py.sorted ["5.5.5.5"; "::1"; "10.0.0.1"])
       ["5.5.5.5"; "::1"; "10.0.0.1"].
Proof.
  apply (addresses_kept_and_sorted
           (Examples.with_addresses ["5.5.5.5"; "::1"; "10.0.0.1"])).
  - reflexivity.
  - intros x [<-|[<-|[<-|[]]]]; eexists; reflexivity.
Defined.

(** X2. At the first address the library refuses, the canonicalization
    of [addresses] stops: an address-format error becomes the module's
    error and names the address; any other exception of the library
    leaves as it is. *)
Theorem addresses_first_refused {netaddr : Netaddr}
        (self : params) (l1 : list string) (x : string) (l2 : list string)
        (e : exn) :
  p_addresses self = Some (l1 ++ x :: l2)%list ->
  (forall y, In y l1 -> exists a, IPAddress y = Ok a) ->
  IPAddress x = Raise e ->
  ModuleParameters.addresses self
  = Raise match e with
          | AddrFormatError =>
              F5ModuleError
                ("Address " ++ x ++ " must be either an IPv4 or IPv6 address")
          | _ => e
          end.
Proof.
  intros Hl Hok Hx. unfold ModuleParameters.addresses. rewrite Hl.
  set (body := fun x : string =>
                 match IPAddress x with
                 | Ok _ => Ok tt
                 | Raise AddrFormatError =>
                     Raise (F5ModuleError
                       ("Address " ++ x ++ " must be either an IPv4 or IPv6 address"))
                 | Raise e => Raise e
                 end).
  destruct (for_each_all_ok body l1) as [items H1].
  { intros y Hy. unfold body. destruct (Hok y Hy) as [a ->]. now exists tt. }
  rewrite (for_each_first_raise body l1 x l2 items
             match e with
             | AddrFormatError =>
                 F5ModuleError
                   ("Address " ++ x ++ " must be either an IPv4 or IPv6 address")
             | _ => e
             end H1); [reflexivity|].
  unfold body. rewrite Hx. now destruct e.
Qed.

Lemma addresses_first_refused_witness :
  ModuleParameters.addresses (Examples.with_addresses ["1.1.1.1"; "1.1.1"; "x"])
  = Raise (F5ModuleError "Address 1.1.1 must be either an IPv4 or IPv6 address")
  /\ ModuleParameters.addresses (Examples.with_addresses ["10.0.0.0/8"])
     = Raise ValueError.
Proof.
  split.
  - apply (addresses_first_refused
             (Examples.with_addresses ["1.1.1.1"; "1.1.1"; "x"])
             ["1.1.1.1"] "1.1.1" ["x"] AddrFormatError).
    + reflexivity.
    + intros y [<-|[]]. eexists; reflexivity.
    + reflexivity.
  - apply (addresses_first_refused
             (Examples.with_addresses ["10.0.0.0/8"]) [] "10.0.0.0/8" [] ValueError).
    + reflexivity.
    + intros y [].
    + reflexivity.
Defined.

(** ** Canonical collections are sorted *)

(** X3. Every collection of the desired state that canonicalizes is in
    ascending order. *)
Theorem desired_collections_ascending {netaddr : Netaddr}
        (want : params) (k : Parameters.field)
        (w : Parameters.value_of (list string) (list string) k) :
  In k collections ->
  ModuleParameters.getattr k want = Ok (Some w) ->
  ascending (elements k w).
Proof.
  intros Hk Hw. destruct k; simpl in *.
  - unfold ModuleParameters.addresses in Hw.
    destruct (p_addresses want); [|discriminate].
    destruct (for_each _ l); simpl in Hw; [|discriminate].
    injection Hw as <-. apply sorted_ascending.
  - unfold ModuleParameters.address_ranges in Hw.
    destruct (p_address_ranges want); [|discriminate].
    destruct (for_each _ l); simpl in Hw; [|discriminate].
    injection Hw as <-. apply sorted_ascending.
  - unfold ModuleParameters.address_lists in Hw.
    destruct (p_address_lists want); [|discriminate].
    injection Hw as <-. apply sorted_ascending.
  - intuition discriminate.
  - unfold ModuleParameters.fqdns in Hw.
    destruct (p_fqdns want); [|discriminate].
    destruct (for_each _ l); simpl in Hw; [|discriminate].
    injection Hw as <-. apply sorted_ascending.
  - unfold ModuleParameters.geo_locations in Hw.
    destruct (p_geo_locations want); [|discriminate].
    injection Hw as <-. apply sorted_ascending.
Qed.

Lemma desired_collections_ascending_witness :
  ascending ["1.1.1.1-2.2.2.2"; "9.0.0.1-10.0.0.1"].
Proof.
  apply (desired_collections_ascending
           (Examples.with_ranges ["10.0.0.1-9.0.0.1"; "2.2.2.2-1.1.1.1"])
           Parameters.address_ranges ["1.1.1.1-2.2.2.2"; "9.0.0.1-10.0.0.1"]).
  - simpl. tauto.
  - reflexivity.
Defined.

(** X4. Every collection of the live state that the device holds is read
    in ascending order. *)
Theorem live_collections_ascending
        (have : attrs) (k : Parameters.field)
        (h : Parameters.value_of (list string) (list string) k) :
  In k collections ->
  ApiParameters.getattr k have = Some h ->
  ascending (elements k h).
Proof.
  intros Hk Hh. destruct k; simpl in *.
  - unfold ApiParameters.addresses in Hh.
    destruct (w_addresses have); [|discriminate].
    injection Hh as <-. apply sorted_ascending.
  - unfold ApiParameters.address_ranges in Hh.
    destruct (w_addresses have); [|discriminate].
    injection Hh as <-. apply sorted_ascending.
  - unfold ApiParameters.address_lists in Hh.
    destruct (w_addressLists have); [|discriminate].
    injection Hh as <-. apply sorted_ascending.
  - intuition discriminate.
  - unfold ApiParameters.fqdns in Hh.
    destruct (w_fqdns have); [|discriminate].
    injection Hh as <-. apply sorted_ascending.
  - unfold ApiParameters.geo_locations in Hh.
    destruct (w_geo have); [|discriminate].
    injection Hh as <-. apply sorted_ascending.
Qed.

Lemma live_collections_ascending_witness :
  ascending ["/Common/a"; "/Other/b"].
Proof.
  apply (live_collections_ascending
           (Examples.referring [{| ref_name := "b"; ref_partition := "Other" |};
                                {| ref_name := "a"; ref_partition := "Common" |}])
           Parameters.address_lists ["/Common/a"; "/Other/b"]).
  - simpl. tauto.
  - reflexivity.
Defined.

(** ** The device's one array of addresses and ranges *)

Section Snapshot.

Lemma contains_lstrip (c : ascii) (s : string) :
  Py.isspace c = false -> Py.contains c (Py.lstrip s) = Py.contains c s.
Proof.
  intros Hc. induction s as [|d s IH]; simpl; [reflexivity|].
  destruct (Py.isspace d) eqn:Hd; [|reflexivity].
  rewrite IH. destruct (Ascii.eqb_spec d c) as [->|_]; [congruence | reflexivity].
Qed.

Lemma contains_rstrip (c : ascii) (s : string) :
  Py.isspace c = false -> Py.contains c (Py.rstrip s) = Py.contains c s.
Proof.
  intros Hc. induction s as [|d s IH]; simpl; [reflexivity|].
  destruct (Py.rstrip s) as [|e r] eqn:E.
  - simpl in IH. rewrite <- IH.
    destruct (Py.isspace d) eqn:Hd; simpl.
    + destruct (Ascii.eqb_spec d c) as [->|_]; [congruence | reflexivity].
    + reflexivity.
  - simpl in *. now rewrite IH.
Qed.

Lemma contains_strip (c : ascii) (s : string) :
  Py.isspace c = false -> Py.contains c (Py.strip s) = Py.contains c s.
Proof.
  intros Hc. unfold Py.strip. now rewrite contains_rstrip, contains_lstrip.
Qed.

Lemma split_by_filter (p : string -> bool) (f : string -> string) (l : list string) :
  Permutation (filter (fun x => negb (p x)) l ++ map f (filter p l))%list
              (map (fun x => if p x then f x else x) l).
Proof.
  induction l as [|x l IH]; simpl; [constructor|].
  destruct (p x); simpl.
  - rewrite <- IH. symmetry. apply Permutation_middle.
  - now constructor.
Qed.

Lemma filter_names (p : string -> bool) (l : list Entry) :
  map entry_name (filter (fun e => p (entry_name e)) l)
  = filter p (map entry_name l).
Proof.
  induction l as [|e l IH]; simpl; [reflexivity|].
  destruct (p (entry_name e)); simpl; now rewrite IH.
Qed.

End Snapshot.

(** X5. The snapshot splits the device's array in two without losing an
    entry: the names without a ['-'] are the addresses, the names with one
    are the ranges, and the two lists together hold every name of the
    array once, each range stripped of the white space around it. *)
Theorem snapshot_splits_the_array (self : attrs) (l : list Entry) :
  w_addresses self = Some l ->
  exists a r : list string,
    ApiParameters.addresses self = Some a
    /\ ApiParameters.address_ranges self = Some r
    /\ Forall (fun x => Py.contains "-" x = false) a
    /\ Forall (fun x => Py.contains "-" x = true) r
    /\ Permutation (a ++ r)%list (map filed (map entry_name l)).
Proof.
  intros H. unfold ApiParameters.addresses, ApiParameters.address_ranges.
  rewrite H. do 2 eexists. split; [reflexivity|]. split; [reflexivity|].
  rewrite (map_filter_names Py.strip (Py.contains "-")).
  rewrite (filter_names (fun x => negb (Py.contains "-" x))).
  split; [|split].
  - eapply Permutation_Forall; [symmetry; apply sorted_perm|].
    apply Forall_forall. intros x Hx. apply filter_In in Hx as [_ Hx].
    now apply negb_true_iff in Hx.
  - eapply Permutation_Forall; [symmetry; apply sorted_perm|].
    apply Forall_forall. intros x Hx. apply in_map_iff in Hx as [y [<- Hy]].
    apply filter_In in Hy as [_ Hy]. now rewrite contains_strip.
  - rewrite !sorted_perm. apply split_by_filter.
Qed.

Lemma snapshot_splits_the_array_witness :
  exists a r : list string,
    ApiParameters.addresses
      (Examples.holding ["9.9.9.9"; " 3.3.3.3-4.4.4.4"; "1.1.1.1"]) = Some a
    /\ ApiParameters.address_ranges
         (Examples.holding ["9.9.9.9"; " 3.3.3.3-4.4.4.4"; "1.1.1.1"]) = Some r
    /\ Forall (fun x => Py.contains "-" x = false) a
    /\ Forall (fun x => Py.contains "-" x = true) r
    /\ Permutation (a ++ r)%list
         (map filed
            (map entry_name
               (UsableChanges.entries ["9.9.9.9"; " 3.3.3.3-4.4.4.4"; "1.1.1.1"]))).
Proof.
  apply (snapshot_splits_the_array
           (Examples.holding ["9.9.9.9"; " 3.3.3.3-4.4.4.4"; "1.1.1.1"])).
  reflexivity.
Defined.

(** ** Regions of white space *)

(** X6. A geo location with a region of white space only canonicalizes
    as the same location without a region. *)
Theorem geo_blank_region_is_no_region
        (self self' : params) (l : list GeoLocation) :
  p_geo_locations self = Some l ->
  p_geo_locations self' = Some (map blank_region_dropped l) ->
  ModuleParameters.geo_locations self' = ModuleParameters.geo_locations self.
Proof.
  intros H H'. unfold ModuleParameters.geo_locations. rewrite H, H'.
  rewrite map_map. do 2 f_equal. apply map_ext. intros x.
  unfold blank_region_dropped. destruct x as [c [r|]]; simpl; [|reflexivity].
  destruct (String.eqb (Py.strip r) "") eqn:E; simpl; [reflexivity|].
  now rewrite E.
Qed.

Lemma geo_blank_region_is_no_region_witness :
  ModuleParameters.geo_locations
    (Examples.with_geo
       (map blank_region_dropped
          [{| country := "US"; region := Some "  " |};
           {| country := "CA"; region := Some "Quebec" |}]))
  = ModuleParameters.geo_locations
      (Examples.with_geo
         [{| country := "US"; region := Some "  " |};
          {| country := "CA"; region := Some "Quebec" |}]).
Proof.
  apply (geo_blank_region_is_no_region _ _
           [{| country := "US"; region := Some "  " |};
            {| country := "CA"; region := Some "Quebec" |}]); reflexivity.
Defined.

(** ** Canonical forms are fixed points *)

Section FixedPoints.

Lemma fqdn_name_absolute (partition value : string) :
  Py.startswith "/" (Parameters._fqdn_name partition value) = true.
Proof.
  unfold Parameters._fqdn_name.
  destruct (Py.startswith "/" value) eqn:E; simpl; [exact E | reflexivity].
Qed.

Lemma fqdn_name_of_absolute (partition value : string) :
  Py.startswith "/" value = true -> Parameters._fqdn_name partition value = value.
Proof. intros H. unfold Parameters._fqdn_name. now rewrite H. Qed.

Lemma map_fixed {A} (f : A -> A) (l : list A) :
  (forall x, In x l -> f x = x) -> map f l = l.
Proof.
  intros H. rewrite <- (map_id l) at 2. now apply map_ext_in.
Qed.

Lemma find_none_iff {A} (f : A -> bool) (l : list A) :
  find f l = None <-> (forall x, In x l -> f x = false).
Proof.
  split; [apply find_none|].
  induction l as [|x l IH]; simpl; intros H; [reflexivity|].
  rewrite (H x (or_introl eq_refl)). apply IH. intros y Hy. apply H. now right.
Qed.

Lemma for_each_ok_inv {A B} (body : A -> result B) (l : list A) (items : list B) :
  for_each body l = Ok items -> forall x, In x l -> exists b, body x = Ok b.
Proof.
  revert items. induction l as [|y l IH]; simpl; intros items H x Hx; [contradiction|].
  destruct (body y) as [b|e] eqn:Ey; simpl in H; [|discriminate].
  destruct (for_each body l) as [bs|e] eqn:El; simpl in H; [|discriminate].
  destruct Hx as [<-|Hx]; [now exists b | now apply (IH bs eq_refl)].
Qed.

Lemma rstrip_char_app (ch : ascii) (s : string) :
  Py.rstrip_char ch (s ++ String ch EmptyString) = Py.rstrip_char ch s.
Proof.
  induction s as [|c s IH]; simpl.
  - now rewrite Ascii.eqb_refl.
  - now rewrite IH.
Qed.

Lemma length_app_one (s : string) (c : ascii) :
  String.length (s ++ String c EmptyString) = S (String.length s).
Proof. induction s; simpl; congruence. Qed.

End FixedPoints.

(** X7. The canonical list references are a fixed point: canonicalizing
    them again, under whatever partition, yields them unchanged. *)
Theorem address_lists_idempotent (self self' : params) (w : list string) :
  ModuleParameters.address_lists self = Some w ->
  p_address_lists self' = Some w ->
  ModuleParameters.address_lists self' = Some w.
Proof.
  unfold ModuleParameters.address_lists. intros H H'. rewrite H'.
  destruct (p_address_lists self) as [l|]; [|discriminate].
  injection H as <-. f_equal.
  rewrite map_fixed; [apply sorted_idem|].
  intros x Hx. apply fqdn_name_of_absolute.
  apply (Permutation_in _ (sorted_perm _)) in Hx.
  apply in_map_iff in Hx as [y [<- _]]. apply fqdn_name_absolute.
Qed.

Lemma address_lists_idempotent_witness :
  ModuleParameters.address_lists
    {| p_name := "foo"; p_partition := "Other"; p_description := None;
       p_addresses := None; p_address_ranges := None;
       p_address_lists := Some ["/Common/bar"; "/Common/foo"];
       p_fqdns := None; p_geo_locations := None; p_state := "present" |}
  = Some ["/Common/bar"; "/Common/foo"].
Proof.
  apply (address_lists_idempotent
           (Examples.with_address_lists ["foo"; "/Common/bar"])); reflexivity.
Defined.

(** X8. The canonical hostnames are a fixed point: hostnames that passed
    the validation pass it again, and stay as they are. *)
Theorem fqdns_idempotent (self self' : params) (w : list string) :
  ModuleParameters.fqdns self = Ok (Some w) ->
  p_fqdns self' = Some w ->
  ModuleParameters.fqdns self' = Ok (Some w).
Proof.
  intros H H'. rewrite (fqdns_first_invalid self' w H').
  destruct (p_fqdns self) as [l|] eqn:Hl;
    [|unfold ModuleParameters.fqdns in H; rewrite Hl in H; discriminate].
  rewrite (fqdns_first_invalid self l Hl) in H.
  destruct (find _ l) eqn:Hfind in H; [discriminate|].
  injection H as <-.
  replace (find _ (Py.sorted l)) with (@None string); [now rewrite sorted_idem|].
  symmetry. apply find_none_iff. intros x Hx.
  apply (Permutation_in _ (sorted_perm _)) in Hx.
  now apply (find_none _ _ Hfind).
Qed.

Lemma fqdns_idempotent_witness :
  ModuleParameters.fqdns (Examples.with_fqdns ["a.example.com"; "b.example.com."])
  = Ok (Some ["a.example.com"; "b.example.com."]).
Proof.
  apply (fqdns_idempotent
           (Examples.with_fqdns ["b.example.com."; "a.example.com"])); reflexivity.
Defined.

(** X9. The canonical addresses are a fixed point: addresses the library
    accepted are accepted again, and stay as they are. *)
Theorem addresses_idempotent {netaddr : Netaddr}
        (self self' : params) (w : list string) :
  ModuleParameters.addresses self = Ok (Some w) ->
  p_addresses self' = Some w ->
  ModuleParameters.addresses self' = Ok (Some w).
Proof.
  unfold ModuleParameters.addresses. intros H H'. rewrite H'.
  destruct (p_addresses self) as [l|]; [|discriminate].
  destruct (for_each _ l) as [items|e] eqn:El in H; simpl in H; [|discriminate].
  injection H as <-.
  match goal with
  | |- rbind (for_each ?body _) _ = _ =>
      destruct (for_each_all_ok body (Py.sorted l)) as [items' ->]
  end.
  - intros x Hx. apply (Permutation_in _ (sorted_perm _)) in Hx.
    exact (for_each_ok_inv _ _ _ El x Hx).
  - simpl. now rewrite sorted_idem.
Qed.

Lemma addresses_idempotent_witness :
  ModuleParameters.addresses (Examples.with_addresses ["10.0.0.1"; "5.5.5.5"])
  = Ok (Some ["10.0.0.1"; "5.5.5.5"]).
Proof.
  apply (addresses_idempotent
           (Examples.with_addresses ["5.5.5.5"; "10.0.0.1"])); reflexivity.
Defined.

(** X10. A canonical range is a fixed point, as long as the library reads
    back the addresses it prints and prints them without a ['-']:
    canonicalizing the canonical form of a range yields it unchanged. *)
Theorem range_item_idempotent {netaddr : Netaddr}
        (r start stop : string) (ia ib : ipaddr) :
  Py.split "-" r = [start; stop] ->
  IPAddress (Py.strip start) = Ok ia -> IPAddress (Py.strip stop) = Ok ib ->
  version ia = version ib ->
  IPAddress (Py.strip (ip_str ia)) = Ok ia ->
  IPAddress (Py.strip (ip_str ib)) = Ok ib ->
  Py.contains "-" (ip_str ia) = false -> Py.contains "-" (ip_str ib) = false ->
  exists item,
    ModuleParameters.range_item r = Ok item
    /\ ModuleParameters.range_item item = Ok item.
Proof.
  intros Hs Pa Pb Hv Ra Rb Da Db.
  rewrite (range_item_parsed r start stop ia ib Hs Pa Pb).
  rewrite Hv, N.eqb_refl. simpl.
  rewrite (ip_gt_same_version ia ib Hv).
  destruct (N.ltb_spec (int_value ib) (int_value ia)) as [Hlt|Hle];
    eexists; (split; [reflexivity|]).
  - rewrite (range_item_parsed _ _ _ ib ia (split_pair "-" _ _ Db Da) Rb Ra).
    rewrite <- Hv, N.eqb_refl. simpl.
    rewrite (ip_gt_same_version ib ia (eq_sym Hv)).
    destruct (N.ltb_spec (int_value ia) (int_value ib)); [lia | reflexivity].
  - rewrite (range_item_parsed _ _ _ ia ib (split_pair "-" _ _ Da Db) Ra Rb).
    rewrite Hv, N.eqb_refl. simpl.
    rewrite (ip_gt_same_version ia ib Hv).
    destruct (N.ltb_spec (int_value ib) (int_value ia)); [lia | reflexivity].
Qed.

Lemma range_item_idempotent_witness :
  exists item,
    ModuleParameters.range_item " 10.0.0.9 - 10.0.0.1" = Ok item
    /\ ModuleParameters.range_item item = Ok item.
Proof.
  apply (range_item_idempotent " 10.0.0.9 - 10.0.0.1" " 10.0.0.9 " " 10.0.0.1"
           {| version := 4; int_value := 167772169 |}
           {| version := 4; int_value := 167772161 |}); reflexivity.
Defined.

(** X11. A dot at the end of a hostname does not change the verdict on
    it, as long as the name with the dot has at most 255 characters. *)
Theorem trailing_dot_is_ignored (host : string) :
  String.length host < 255 ->
  ModuleParameters.is_valid_hostname (host ++ ".")
  = ModuleParameters.is_valid_hostname host.
Proof.
  intros H. unfold ModuleParameters.is_valid_hostname.
  rewrite rstrip_char_app, length_app_one.
  destruct (Nat.ltb_spec 255 (S (String.length host))) as [H1|_]; [lia|].
  destruct (Nat.ltb_spec 255 (String.length host)) as [H2|_]; [lia|].
  reflexivity.
Qed.

Lemma trailing_dot_is_ignored_witness :
  ModuleParameters.is_valid_hostname ("good.example.com" ++ ".")
  = ModuleParameters.is_valid_hostname "good.example.com".
Proof.
  apply (trailing_dot_is_ignored "good.example.com"). simpl. lia.
Defined.

(** ** References to other address lists *)

Section References.

Lemma split_full_path (x : ListRef) :
  plain_ref x ->
  tl (Py.split "/" (full_path x)) = [ref_partition x; ref_name x].
Proof.
  intros [Hp Hn]. unfold full_path.
  change ("/" ++ ref_partition x ++ "/" ++ ref_name x)
    with (String "/" (ref_partition x ++ String "/" (ref_name x))).
  cbn [Py.split]. rewrite Ascii.eqb_refl. cbn [tl].
  now apply split_pair.
Qed.

Lemma address_lists_prefix (refs : list ListRef) :
  Forall plain_ref refs ->
  for_each (fun x =>
              match tl (Py.split "/" x) with
              | [partition; name] =>
                  Ok {| ref_name := name; ref_partition := partition |}
              | _ => Raise ValueError
              end) (map full_path refs) = Ok refs.
Proof.
  induction refs as [|x refs IH]; intros Hp; [reflexivity|].
  inversion Hp as [|? ? Hx Hrest]; subst.
  cbn [map for_each]. rewrite (split_full_path x Hx). simpl.
  rewrite (IH Hrest). simpl. now destruct x.
Qed.

End References.

(** X12. Taking a full path apart gives the reference back: for
    references whose partition and name hold no ['/'], the change-set in
    the device's shape holds exactly the references the paths were printed
    from, in the same order. *)
Theorem address_lists_round_trip
        (self : UsableChanges.self_t) (refs : list ListRef) :
  Forall plain_ref refs ->
  Parameters.v_address_lists self = Some (map full_path refs) ->
  UsableChanges.address_lists self = Ok (Some refs).
Proof.
  intros Hp H. unfold UsableChanges.address_lists. rewrite H.
  now rewrite (address_lists_prefix refs Hp).
Qed.

Lemma address_lists_round_trip_witness :
  UsableChanges.address_lists
    {| Parameters.v_addresses := None; Parameters.v_address_ranges := None;
       Parameters.v_address_lists := Some ["/Common/foo"; "/Other/bar"];
       Parameters.v_description := None; Parameters.v_fqdns := None;
       Parameters.v_geo_locations := None |}
  = Ok (Some [{| ref_name := "foo"; ref_partition := "Common" |};
              {| ref_name := "bar"; ref_partition := "Other" |}]).
Proof.
  apply (address_lists_round_trip _
           [{| ref_name := "foo"; ref_partition := "Common" |};
            {| ref_name := "bar"; ref_partition := "Other" |}]).
  - repeat constructor.
  - reflexivity.
Defined.

(** X13. A path that is not of the shape [/partition/name] cannot be
    taken apart: at the first path that does not split on ['/'] into
    three parts, the conversion to the device's shape raises
    [ValueError]. *)
Theorem address_lists_malformed_path
        (self : UsableChanges.self_t) (refs : list ListRef)
        (x : string) (rest : list string) :
  Forall plain_ref refs ->
  Parameters.v_address_lists self = Some (map full_path refs ++ x :: rest)%list ->
  List.length (Py.split "/" x) <> 3 ->
  UsableChanges.address_lists self = Raise ValueError.
Proof.
  intros Hp H Hx.
  pose proof (address_lists_prefix refs Hp) as Hprefix.
  unfold UsableChanges.address_lists. rewrite H.
  rewrite (for_each_first_raise _ _ x rest _ ValueError Hprefix); [reflexivity|].
  destruct (Py.split "/" x) as [|a [|b [|c [|d l]]]]; simpl in *;
    try reflexivity; now elim Hx.
Qed.

Lemma address_lists_malformed_path_witness :
  UsableChanges.address_lists
    {| Parameters.v_addresses := None; Parameters.v_address_ranges := None;
       Parameters.v_address_lists := Some ["/Common/foo"; "/bar"];
       Parameters.v_description := None; Parameters.v_fqdns := None;
       Parameters.v_geo_locations := None |}
  = Raise ValueError.
Proof.
  apply (address_lists_malformed_path _
           [{| ref_name := "foo"; ref_partition := "Common" |}] "/bar" []).
  - repeat constructor.
  - reflexivity.
  - simpl. discriminate.
Defined.

(** ** More on the differ *)

Section DifferMore.
Context {netaddr : Netaddr}.

Lemma get_set_same {A L} (k : Parameters.field)
      (v : option (Parameters.value_of A L k)) (d : Parameters.values A L) :
  Parameters.get k (Parameters.set k v d) = v.
Proof. now destruct k. Qed.

Lemma updatables_nodup : NoDup Parameters.updatables.
Proof.
  unfold Parameters.updatables.
  repeat (constructor; [simpl; intuition discriminate|]). constructor.
Qed.

Lemma updatables_all (k : Parameters.field) : In k Parameters.updatables.
Proof. destruct k; simpl; tauto. Qed.

(** The loop over the fields [ks], none of them repeated or already in
    the dictionary: every field of [ks] ends up with what the differ says
    about it, and every other field is left as it was. *)
Lemma changed_options_spec (module : ansible_module) (have : attrs)
      (ks : list Parameters.field) :
  NoDup ks ->
  forall changed changed',
    (forall k, In k ks -> Parameters.get k changed = None) ->
    ModuleManager.changed_options module have ks changed = Ok changed' ->
    (forall k, In k ks ->
       Difference.compare (module_params module) have k
       = Ok (Parameters.get k changed'))
    /\ (forall k, ~ In k ks -> Parameters.get k changed' = Parameters.get k changed).
Proof.
  induction 1 as [|k0 ks Hnotin Hnodup IH]; intros changed changed' Hnone Hrun.
  - simpl in Hrun. injection Hrun as <-. split; [intros k []|reflexivity].
  - cbn [ModuleManager.changed_options] in Hrun. unfold ModuleManager.want in Hrun.
    destruct (Difference.compare (module_params module) have k0) as [v0|e] eqn:E0;
      simpl in Hrun; [|discriminate].
    assert (Hstep : exists start,
               ModuleManager.changed_options module have ks start = Ok changed'
               /\ Parameters.get k0 start = v0
               /\ (forall k, k <> k0 -> Parameters.get k start = Parameters.get k changed)).
    { destruct v0 as [v|].
      - exists (Parameters.set k0 (Some v) changed).
        split; [exact Hrun|]. split; [apply get_set_same|].
        intros k Hk. now apply get_set_other.
      - exists changed. split; [exact Hrun|].
        split; [apply Hnone; now left | reflexivity]. }
    destruct Hstep as [start [Hrun' [Hk0 Hother]]].
    destruct (IH start changed') as [Hin Hout]; [|exact Hrun'|].
    { intros k Hk. rewrite Hother; [apply Hnone; now right|].
      intros ->. contradiction. }
    split.
    + intros k [<-|Hk]; [|now apply Hin].
      now rewrite (Hout k0 Hnotin), Hk0.
    + intros k Hk. rewrite (Hout k); [|intros Hin'; apply Hk; now right].
      apply Hother. intros ->. apply Hk. now left.
Qed.

End DifferMore.

(** X14. When the device does not hold a field that the desired state
    holds, the whole desired value is the change. *)
Theorem compare_live_absent {netaddr : Netaddr}
        (want : params) (have : attrs) (k : Parameters.field)
        (w : Parameters.value_of (list string) (list string) k) :
  ModuleParameters.getattr k want = Ok (Some w) ->
  ApiParameters.getattr k have = None ->
  Difference.compare want have k = Ok (Some w).
Proof.
  intros Hw Hh. destruct k; simpl in *.
  - unfold Difference.addresses. now rewrite Hw, Hh.
  - unfold Difference.address_ranges. now rewrite Hw, Hh.
  - unfold Difference.address_lists. injection Hw as Hw. now rewrite Hw, Hh.
  - unfold Difference.__default. simpl. injection Hw as Hw. now rewrite Hw, Hh.
  - unfold Difference.fqdns. now rewrite Hw, Hh.
  - unfold Difference.__default. simpl. injection Hw as Hw. now rewrite Hw, Hh.
Qed.

Lemma compare_live_absent_witness :
  Difference.compare (Examples.with_fqdns ["b.example.com"; "a.example.com"])
    (Examples.holding ["9.9.9.9"]) Parameters.fqdns
  = Ok (Some ["a.example.com"; "b.example.com"]).
Proof.
  apply (compare_live_absent
           (Examples.with_fqdns ["b.example.com"; "a.example.com"])
           (Examples.holding ["9.9.9.9"]) Parameters.fqdns); reflexivity.
Defined.

(** X15. The description changes exactly when the desired one is another
    string than the live one; the change is the desired description. *)
Theorem compare_description {netaddr : Netaddr}
        (want : params) (have : attrs) (d d' : string) :
  p_description want = Some d ->
  w_description have = Some d' ->
  Difference.compare want have Parameters.description
  = Ok (if String.eqb d d' then None else Some d).
Proof.
  intros Hw Hh. simpl. unfold Difference.__default. simpl.
  rewrite Hw, Hh. simpl. now destruct (String.eqb d d').
Qed.

Lemma compare_description_witness :
  Difference.compare (Examples.with_description "new")
    (Examples.described "old") Parameters.description
  = Ok (if String.eqb "new" "old" then None else Some "new").
Proof.
  apply (compare_description (Examples.with_description "new")
           (Examples.described "old")); reflexivity.
Defined.

(** X16. An exception raised while a desired field is canonicalized
    leaves the differ unchanged, whatever the device holds. *)
Theorem compare_propagates {netaddr : Netaddr}
        (want : params) (have : attrs) (k : Parameters.field) (e : exn) :
  ModuleParameters.getattr k want = Raise e ->
  Difference.compare want have k = Raise e.
Proof.
  intros Hw. destruct k; simpl in *; try discriminate.
  - unfold Difference.addresses. now rewrite Hw.
  - unfold Difference.address_ranges. now rewrite Hw.
  - unfold Difference.fqdns. now rewrite Hw.
Qed.

Lemma compare_propagates_witness :
  Difference.compare (Examples.with_fqdns ["-bad.example.com"])
    (Examples.holding ["9.9.9.9"]) Parameters.fqdns
  = Raise (F5ModuleError "The hostname '-bad.example.com' looks invalid.").
Proof.
  apply (compare_propagates (Examples.with_fqdns ["-bad.example.com"])
           (Examples.holding ["9.9.9.9"]) Parameters.fqdns).
  reflexivity.
Defined.

(** X17. Against a resource that is not there yet (the empty live state
    that [create] sets), the differ reports every field as the desired
    state has it: what the user supplied is the change, what the user left
    out is none, and a field that does not canonicalize raises. *)
Theorem compare_with_nothing {netaddr : Netaddr}
        (want : params) (k : Parameters.field) :
  Difference.compare want no_attrs k = ModuleParameters.getattr k want.
Proof.
  destruct k; simpl;
    unfold Difference.addresses, Difference.address_ranges,
      Difference.address_lists, Difference.fqdns, Difference.__default,
      Difference.sorted_difference; simpl.
  - now destruct (ModuleParameters.addresses want) as [[w|]|e].
  - now destruct (ModuleParameters.address_ranges want) as [[w|]|e].
  - now destruct (ModuleParameters.address_lists want).
  - now destruct (p_description want).
  - now destruct (ModuleParameters.fqdns want) as [[w|]|e].
  - now destruct (ModuleParameters.geo_locations want).
Qed.

(** X18. The change-set holds, for every updatable field, exactly what
    the differ reports for it. *)
Theorem change_set_is_the_diff {netaddr : Netaddr}
        (module : ansible_module) (have : attrs)
        (changed : UsableChanges.self_t) (k : Parameters.field) :
  ModuleManager.changed_options module have Parameters.updatables Parameters.empty
  = Ok changed ->
  Difference.compare (module_params module) have k
  = Ok (Parameters.get k changed).
Proof.
  intros H.
  destruct (changed_options_spec module have Parameters.updatables
              updatables_nodup Parameters.empty changed) as [Hin _].
  - intros k' _. now destruct k'.
  - exact H.
  - apply Hin, updatables_all.
Qed.

Lemma change_set_is_the_diff_witness :
  Difference.compare (Examples.with_addresses ["2.2.2.2"; "1.1.1.1"])
    (Examples.holding ["9.9.9.9"]) Parameters.addresses
  = Ok (Some ["1.1.1.1"; "2.2.2.2"]).
Proof.
  apply (change_set_is_the_diff
           (Examples.running (Examples.with_addresses ["2.2.2.2"; "1.1.1.1"]))
           (Examples.holding ["9.9.9.9"])
           {| Parameters.v_addresses := Some ["1.1.1.1"; "2.2.2.2"];
              Parameters.v_address_ranges := None;
              Parameters.v_address_lists := None;
              Parameters.v_description := None;
              Parameters.v_fqdns := None;
              Parameters.v_geo_locations := None |} Parameters.addresses).
  reflexivity.
Defined.

(** ** More on the life cycle *)

Ltac run_manager :=
  unfold ModuleManager.exec_module, ModuleManager.present, ModuleManager.absent,
    ModuleManager.update, ModuleManager.create, ModuleManager.remove,
    ModuleManager.remove_from_device, ModuleManager.update_on_device,
    ModuleManager.create_on_device, ModuleManager.should_update,
    ModuleManager._update_changed_options,
    ModuleManager.read_current_from_device, ModuleManager.exists_,
    ModuleManager.wrap_http, ModuleManager.bind, ModuleManager.query,
    ModuleManager.command, ModuleManager.record_call, ModuleManager.init,
    ModuleManager.set_have, ModuleManager.set_changes, ModuleManager.get_have,
    ModuleManager.get_changes, ModuleManager.lift, ModuleManager.raise,
    ModuleManager.ret, ModuleManager.want;
  cbv beta iota delta [ModuleManager.device ModuleManager.calls
                       ModuleManager.have ModuleManager.changes app].

Ltac step_manager :=
  cbv beta iota delta [ModuleManager.device ModuleManager.calls
                       ModuleManager.have ModuleManager.changes app fst snd].

(** X19. In check mode the module only asks: whatever the desired state,
    the target state and the answers of the device, it makes no [create],
    [modify] or [delete] call, and the device is left as it was. *)
Theorem check_mode_never_mutates
        {netaddr : Netaddr} {D : Type} {client : DeviceClient D}
        (module : ansible_module) (dev : D) :
  check_mode module = true ->
  Forall read_only
    (ModuleManager.calls
       (snd (ModuleManager.exec_module module (ModuleManager.init dev))))
  /\ ModuleManager.device
       (snd (ModuleManager.exec_module module (ModuleManager.init dev))) = dev.
Proof.
  intros Hcheck. run_manager. rewrite Hcheck.
  destruct (String.eqb (p_state (module_params module)) "present").
  - destruct (address_list_exists (p_name (module_params module))
               (p_partition (module_params module)) dev) as [[|]|e]; step_manager.
    + destruct (address_list_load (p_name (module_params module))
                 (p_partition (module_params module)) dev) as [a|e]; step_manager.
      * destruct (ModuleManager.changed_options module a
                     Parameters.updatables Parameters.empty) as [changed|e];
          step_manager.
        -- destruct (Parameters.nonempty changed); step_manager;
             split; first [repeat constructor | reflexivity].
        -- destruct e; step_manager; split;
             first [repeat constructor | reflexivity].
      * destruct e; step_manager; split; first [repeat constructor | reflexivity].
    + destruct (ModuleManager.changed_options module no_attrs
                 Parameters.updatables Parameters.empty) as [changed|e];
        step_manager.
      * destruct (Parameters.nonempty changed); step_manager;
          split; first [repeat constructor | reflexivity].
      * destruct e; step_manager; split; first [repeat constructor | reflexivity].
    + destruct e; step_manager; split; first [repeat constructor | reflexivity].
  - destruct (String.eqb (p_state (module_params module)) "absent").
    + destruct (address_list_exists (p_name (module_params module))
               (p_partition (module_params module)) dev) as [[|]|e]; step_manager;
        try (destruct e; step_manager);
        split; first [repeat constructor | reflexivity].
    + step_manager. split; [constructor | reflexivity].
Qed.

Lemma check_mode_never_mutates_witness :
  Forall read_only
    (ModuleManager.calls
       (snd (ModuleManager.exec_module
               (Examples.dry_running (Examples.with_addresses ["1.1.1.1"]))
               (ModuleManager.init
                  (Examples.device_with (Examples.holding ["9.9.9.9"]))))))
  /\ ModuleManager.device
       (snd (ModuleManager.exec_module
               (Examples.dry_running (Examples.with_addresses ["1.1.1.1"]))
               (ModuleManager.init
                  (Examples.device_with (Examples.holding ["9.9.9.9"])))))
     = Examples.device_with (Examples.holding ["9.9.9.9"]).
Proof.
  apply (check_mode_never_mutates
           (Examples.dry_running (Examples.with_addresses ["1.1.1.1"]))).
  reflexivity.
Defined.

(** X20. Removing what is not there is no change: with state [absent]
    and a device that answers that the resource does not exist, the module
    makes the existence check and nothing else, and returns [changed]
    false with an empty report. *)
Theorem absent_when_absent
        {netaddr : Netaddr} {D : Type} {client : DeviceClient D}
        (module : ansible_module) (dev : D) :
  let want := module_params module in
  p_state want = "absent" ->
  address_list_exists (p_name want) (p_partition want) dev = Ok false ->
  ModuleManager.exec_module module (ModuleManager.init dev)
  = (Ok {| ModuleManager.reported := Parameters.empty;
           ModuleManager.changed := false |},
     {| ModuleManager.device := dev;
        ModuleManager.calls := [Exists];
        ModuleManager.have := no_attrs;
        ModuleManager.changes := Parameters.empty |}).
Proof.
  intros want Hstate Hexists. run_manager. fold want.
  rewrite Hstate. cbn [String.eqb Ascii.eqb Bool.eqb].
  rewrite Hexists. reflexivity.
Qed.

Lemma absent_when_absent_witness :
  ModuleManager.exec_module (Examples.running (no_params "foo" "absent"))
    (ModuleManager.init Examples.empty_device)
  = (Ok {| ModuleManager.reported := Parameters.empty;
           ModuleManager.changed := false |},
     {| ModuleManager.device := Examples.empty_device;
        ModuleManager.calls := [Exists];
        ModuleManager.have := no_attrs;
        ModuleManager.changes := Parameters.empty |}).
Proof.
  exact (absent_when_absent (Examples.running (no_params "foo" "absent"))
           Examples.empty_device eq_refl eq_refl).
Defined.

Section Reconcile.
Context {netaddr : Netaddr}.

Lemma changed_options_no_difference (module : ansible_module) (have : attrs) :
  (forall k, Difference.compare (module_params module) have k = Ok None) ->
  ModuleManager.changed_options module have Parameters.updatables Parameters.empty
  = Ok Parameters.empty.
Proof.
  intros H. unfold Parameters.updatables.
  cbn [ModuleManager.changed_options]. unfold ModuleManager.want.
  rewrite !H. reflexivity.
Qed.

Lemma nonempty_false {A L} (d : Parameters.values A L) :
  Parameters.nonempty d = false -> d = Parameters.empty.
Proof.
  destruct d as [[a|] [r|] [al|] [de|] [f|] [g|]]; simpl; intros H;
    try discriminate; reflexivity.
Qed.

End Reconcile.

(** X21. An update without a difference is no update: with state
    [present], a resource that exists and a differ that reports no change
    for any field, the module checks, loads, and stops; nothing is sent,
    and it returns [changed] false with an empty report. *)
Theorem update_without_difference
        {netaddr : Netaddr} {D : Type} {client : DeviceClient D}
        (module : ansible_module) (dev : D) (a : attrs) :
  let want := module_params module in
  p_state want = "present" ->
  address_list_exists (p_name want) (p_partition want) dev = Ok true ->
  address_list_load (p_name want) (p_partition want) dev = Ok a ->
  (forall k, Difference.compare want a k = Ok None) ->
  ModuleManager.exec_module module (ModuleManager.init dev)
  = (Ok {| ModuleManager.reported := Parameters.empty;
           ModuleManager.changed := false |},
     {| ModuleManager.device := dev;
        ModuleManager.calls := [Exists; Load];
        ModuleManager.have := a;
        ModuleManager.changes := Parameters.empty |}).
Proof.
  intros want Hstate Hexists Hload Hdiff. run_manager. fold want.
  rewrite Hstate. cbn [String.eqb Ascii.eqb Bool.eqb].
  rewrite Hexists. step_manager. rewrite Hload. step_manager.
  rewrite (changed_options_no_difference module a Hdiff). reflexivity.
Qed.

Lemma update_without_difference_witness :
  ModuleManager.exec_module
    (Examples.running (Examples.with_addresses ["2.2.2.2"; "1.1.1.1"]))
    (ModuleManager.init
       (Examples.device_with (Examples.holding ["1.1.1.1"; "2.2.2.2"])))
  = (Ok {| ModuleManager.reported := Parameters.empty;
           ModuleManager.changed := false |},
     {| ModuleManager.device :=
          Examples.device_with (Examples.holding ["1.1.1.1"; "2.2.2.2"]);
        ModuleManager.calls := [Exists; Load];
        ModuleManager.have := Examples.holding ["1.1.1.1"; "2.2.2.2"];
        ModuleManager.changes := Parameters.empty |}).
Proof.
  apply (update_without_difference
           (Examples.running (Examples.with_addresses ["2.2.2.2"; "1.1.1.1"]))
           (Examples.device_with (Examples.holding ["1.1.1.1"; "2.2.2.2"]))
           (Examples.holding ["1.1.1.1"; "2.2.2.2"])).
  - reflexivity.
  - reflexivity.
  - reflexivity.
  - intros k. destruct k; reflexivity.
Defined.

(** X22. An update sends the change-set and nothing else: with state
    [present], outside check mode, on a resource that exists, when the
    differ yields a change-set that is not empty and the device answers,
    the calls are the existence check, two loads and one [modify] with
    the arguments built from the change-set; the module returns [changed]
    true. *)
Theorem update_sends_the_change_set
        {netaddr : Netaddr} {D : Type} {client : DeviceClient D}
        (module : ansible_module) (dev dev' : D) (a : attrs)
        (changed : UsableChanges.self_t) (kw : kwargs) :
  let want := module_params module in
  p_state want = "present" ->
  check_mode module = false ->
  address_list_exists (p_name want) (p_partition want) dev = Ok true ->
  address_list_load (p_name want) (p_partition want) dev = Ok a ->
  ModuleManager.changed_options module a Parameters.updatables Parameters.empty
  = Ok changed ->
  Parameters.nonempty changed = true ->
  UsableChanges.api_params changed = Ok kw ->
  resource_modify (p_name want) (p_partition want) kw dev = Ok dev' ->
  ModuleManager.exec_module module (ModuleManager.init dev)
  = (Ok {| ModuleManager.reported :=
             ReportableChanges.to_return (UsableChanges.to_return changed);
           ModuleManager.changed := true |},
     {| ModuleManager.device := dev';
        ModuleManager.calls := [Exists; Load; Load; Modify kw];
        ModuleManager.have := a;
        ModuleManager.changes := changed |}).
Proof.
  intros want Hstate Hcheck Hexists Hload Hdiff Hne Hkw Hmodify.
  run_manager. fold want.
  rewrite Hstate. cbn [String.eqb Ascii.eqb Bool.eqb].
  rewrite Hexists. step_manager. rewrite Hload. step_manager.
  rewrite Hdiff, Hne. step_manager. cbn [negb]. rewrite Hcheck.
  step_manager. rewrite Hkw. step_manager. rewrite Hload. step_manager.
  rewrite Hmodify. reflexivity.
Qed.

Lemma update_sends_the_change_set_witness :
  ModuleManager.exec_module
    (Examples.running (Examples.with_description "new"))
    (ModuleManager.init (Examples.device_with (Examples.described "old")))
  = (Ok {| ModuleManager.reported :=
             ReportableChanges.to_return
               (UsableChanges.to_return
                  (Parameters.set Parameters.description (Some "new")
                     Parameters.empty));
           ModuleManager.changed := true |},
     {| ModuleManager.device := Examples.device_with (Examples.described "new");
        ModuleManager.calls :=
          [Exists; Load; Load;
           Modify {| kw_addressLists := None; kw_addresses := None;
                     kw_description := Some "new"; kw_fqdns := None;
                     kw_geo := None |}];
        ModuleManager.have := Examples.described "old";
        ModuleManager.changes :=
          Parameters.set Parameters.description (Some "new") Parameters.empty |}).
Proof.
  apply (update_sends_the_change_set
           (Examples.running (Examples.with_description "new"))
           (Examples.device_with (Examples.described "old"))
           (Examples.device_with (Examples.described "new"))
           (Examples.described "old")); reflexivity.
Defined.

(** X23. Creating sends everything the user supplied: with state
    [present], outside check mode, when the device answers that the
    resource does not exist, the change-set is taken against the empty
    live state and one [create] is made with the arguments built from it,
    also when the change-set is empty; the module returns [changed]
    true. *)
Theorem create_sends_the_desired_state
        {netaddr : Netaddr} {D : Type} {client : DeviceClient D}
        (module : ansible_module) (dev dev' : D)
        (changed : UsableChanges.self_t) (kw : kwargs) :
  let want := module_params module in
  p_state want = "present" ->
  check_mode module = false ->
  address_list_exists (p_name want) (p_partition want) dev = Ok false ->
  ModuleManager.changed_options module no_attrs
    Parameters.updatables Parameters.empty = Ok changed ->
  UsableChanges.api_params changed = Ok kw ->
  address_list_create (p_name want) (p_partition want) kw dev = Ok dev' ->
  ModuleManager.exec_module module (ModuleManager.init dev)
  = (Ok {| ModuleManager.reported :=
             ReportableChanges.to_return (UsableChanges.to_return changed);
           ModuleManager.changed := true |},
     {| ModuleManager.device := dev';
        ModuleManager.calls := [Exists; Create kw];
        ModuleManager.have := no_attrs;
        ModuleManager.changes := changed |}).
Proof.
  intros want Hstate Hcheck Hexists Hdiff Hkw Hcreate.
  run_manager. fold want.
  rewrite Hstate. cbn [String.eqb Ascii.eqb Bool.eqb].
  rewrite Hexists. step_manager. rewrite Hdiff.
  destruct (Parameters.nonempty changed) eqn:Hne; step_manager.
  - rewrite Hcheck. step_manager. rewrite Hkw. step_manager.
    rewrite Hcreate. reflexivity.
  - apply nonempty_false in Hne. subst changed.
    rewrite Hcheck. step_manager. rewrite Hkw. step_manager.
    rewrite Hcreate. reflexivity.
Qed.

Lemma create_sends_the_desired_state_witness :
  ModuleManager.exec_module
    (Examples.running (Examples.with_addresses ["5.5.5.5"; "3.3.3.3"; "4.4.4.4"]))
    (ModuleManager.init Examples.empty_device)
  = (Ok {| ModuleManager.reported :=
             ReportableChanges.to_return
               (UsableChanges.to_return
                  (Parameters.set Parameters.addresses
                     (Some ["3.3.3.3"; "4.4.4.4"; "5.5.5.5"]) Parameters.empty));
           ModuleManager.changed := true |},
     {| ModuleManager.device :=
          Examples.device_with (Examples.holding ["3.3.3.3"; "4.4.4.4"; "5.5.5.5"]);
        ModuleManager.calls :=
          [Exists;
           Create {| kw_addressLists := None;
                     kw_addresses :=
                       Some (UsableChanges.entries ["3.3.3.3"; "4.4.4.4"; "5.5.5.5"]);
                     kw_description := None; kw_fqdns := None; kw_geo := None |}];
        ModuleManager.have := no_attrs;
        ModuleManager.changes :=
          Parameters.set Parameters.addresses
            (Some ["3.3.3.3"; "4.4.4.4"; "5.5.5.5"]) Parameters.empty |}).
Proof.
  apply (create_sends_the_desired_state
           (Examples.running (Examples.with_addresses ["5.5.5.5"; "3.3.3.3"; "4.4.4.4"]))
           Examples.empty_device
           (Examples.device_with (Examples.holding ["3.3.3.3"; "4.4.4.4"; "5.5.5.5"])));
    reflexivity.
Defined.

(** X24. An HTTP error of the device becomes the module's error with the
    same message, and any other exception of a device call leaves as it
    is: when the existence check raises, with state [present] or [absent],
    the module raises after that one call. *)
Theorem device_error_is_wrapped
        {netaddr : Netaddr} {D : Type} {client : DeviceClient D}
        (module : ansible_module) (dev : D) (e : exn) :
  let want := module_params module in
  p_state want = "present" \/ p_state want = "absent" ->
  address_list_exists (p_name want) (p_partition want) dev = Raise e ->
  ModuleManager.exec_module module (ModuleManager.init dev)
  = (Raise match e with
           | iControlUnexpectedHTTPError msg => F5ModuleError msg
           | _ => e
           end,
     {| ModuleManager.device := dev;
        ModuleManager.calls := [Exists];
        ModuleManager.have := no_attrs;
        ModuleManager.changes := Parameters.empty |}).
Proof.
  intros want Hstate Hexists. run_manager. fold want.
  destruct Hstate as [-> | ->]; cbn [String.eqb Ascii.eqb Bool.eqb];
    rewrite Hexists; now destruct e.
Qed.

Lemma device_error_is_wrapped_witness :
  ModuleManager.exec_module (client := Unreachable.client)
    (Examples.running (Examples.with_addresses ["1.1.1.1"]))
    (ModuleManager.init tt)
  = (Raise (F5ModuleError "503 Unexpected Error: Service Unavailable"),
     {| ModuleManager.device := tt;
        ModuleManager.calls := [Exists];
        ModuleManager.have := no_attrs;
        ModuleManager.changes := Parameters.empty |}).
Proof.
  apply (device_error_is_wrapped (client := Unreachable.client)
           (Examples.running (Examples.with_addresses ["1.1.1.1"])) tt
           (iControlUnexpectedHTTPError "503 Unexpected Error: Service Unavailable")).
  - left. reflexivity.
  - reflexivity.
Defined.

(** ** More on the report *)

Section Report.
Context {netaddr : Netaddr}.

(** Nothing is in the result of [to_return] under ['addresses'] but what
    the attribute yields, when it yields. *)
Lemma to_return_addresses {A L}
      (getattr : forall k, result (option (Parameters.value_of A L k))) :
  Parameters.v_addresses (Parameters.to_return getattr)
  = match getattr Parameters.addresses with
    | Ok v => v
    | Raise _ => None
    end.
Proof.
  unfold Parameters.to_return, Parameters.returnables.
  cbn [Parameters.to_return_loop].
  destruct (getattr Parameters.addresses) as [v|e]; [|reflexivity].
  destruct (getattr Parameters.address_ranges); [|reflexivity].
  destruct (getattr Parameters.address_lists); [|reflexivity].
  destruct (getattr Parameters.description); [|reflexivity].
  destruct (getattr Parameters.fqdns); [|reflexivity].
  destruct (getattr Parameters.geo_locations); reflexivity.
Qed.

Lemma filter_entries (p : string -> bool) (l : list string) :
  map entry_name
      (filter (fun item => p (entry_name item)) (UsableChanges.entries l))
  = filter p l.
Proof.
  induction l as [|x l IH]; simpl; [reflexivity|].
  destruct (p x); simpl; now rewrite IH.
Qed.

Lemma filter_all {A} (p : A -> bool) (l : list A) :
  Forall (fun x => p x = true) l -> filter p l = l.
Proof.
  induction 1 as [|x l Hx _ IH]; simpl; [reflexivity|]. now rewrite Hx, IH.
Qed.

Lemma filter_none {A} (p : A -> bool) (l : list A) :
  Forall (fun x => p x = false) l -> filter p l = [].
Proof.
  induction 1 as [|x l Hx _ IH]; simpl; [reflexivity|]. now rewrite Hx.
Qed.

Lemma Forall_negb {A} (p : A -> bool) (l : list A) :
  Forall (fun x => p x = true) l -> Forall (fun x => negb (p x) = false) l.
Proof.
  intros H. eapply Forall_impl; [|exact H]. intros x Hx. simpl in *. now rewrite Hx.
Qed.

(** What goes to the device under ['addresses'] when the change-set
    holds addresses: the addresses, then the ranges if there are any. *)
Lemma usable_addresses (changes : UsableChanges.self_t) (a : list string) :
  Parameters.v_addresses changes = Some a ->
  UsableChanges.addresses changes
  = Some (UsableChanges.entries
            (a ++ match Parameters.v_address_ranges changes with
                  | Some r => r
                  | None => []
                  end)%list).
Proof.
  intros Ha. unfold UsableChanges.addresses, UsableChanges.entries. rewrite Ha.
  destruct (Parameters.v_address_ranges changes) as [r|]; simpl.
  - now rewrite map_app.
  - now rewrite app_nil_r.
Qed.

End Report.

(** X25. The description, the hostnames and the geo locations are
    reported only together with list references: when the change-set
    holds no [address_lists], the report holds none of the four, whatever
    else changed. *)
Theorem report_stops_at_address_lists {netaddr : Netaddr}
        (changes : UsableChanges.self_t) :
  Parameters.v_address_lists changes = None ->
  let reported := ReportableChanges.to_return (UsableChanges.to_return changes) in
  Parameters.v_address_lists reported = None
  /\ Parameters.v_description reported = None
  /\ Parameters.v_fqdns reported = None
  /\ Parameters.v_geo_locations reported = None.
Proof.
  destruct changes as [a r al d f g]. simpl. intros ->.
  unfold UsableChanges.to_return, ReportableChanges.to_return,
    Parameters.to_return, Parameters.returnables.
  cbn [Parameters.to_return_loop UsableChanges.getattr UsableChanges.address_lists
       Parameters.v_address_lists Parameters._filter_params].
  cbn [ReportableChanges.getattr Parameters.set Parameters.v_addresses
       Parameters.v_address_ranges Parameters.v_address_lists
       Parameters.v_description Parameters.v_fqdns Parameters.v_geo_locations
       Parameters.empty].
  destruct (ReportableChanges.addresses _) as [x|e]; cbn [rbind];
    [|repeat split].
  destruct (ReportableChanges.address_ranges _) as [y|e]; cbn [rbind];
    repeat split.
Qed.

Lemma report_stops_at_address_lists_witness :
  let reported :=
    ReportableChanges.to_return
      (UsableChanges.to_return
         {| Parameters.v_addresses := Some ["1.1.1.1"];
            Parameters.v_address_ranges := None;
            Parameters.v_address_lists := None;
            Parameters.v_description := Some "new";
            Parameters.v_fqdns := Some ["a.example.com"];
            Parameters.v_geo_locations := None |}) in
  Parameters.v_address_lists reported = None
  /\ Parameters.v_description reported = None
  /\ Parameters.v_fqdns reported = None
  /\ Parameters.v_geo_locations reported = None.
Proof.
  apply (report_stops_at_address_lists
           {| Parameters.v_addresses := Some ["1.1.1.1"];
              Parameters.v_address_ranges := None;
              Parameters.v_address_lists := None;
              Parameters.v_description := Some "new";
              Parameters.v_fqdns := Some ["a.example.com"];
              Parameters.v_geo_locations := None |}).
  reflexivity.
Defined.

(** X26. Changed addresses come back out of the device's shape as they
    went in: when the change-set holds addresses without a ['-'], and its
    ranges, if it has any, each hold one, the report shows exactly the
    addresses, in their order, whatever becomes of the other fields. *)
Theorem reported_addresses_round_trip {netaddr : Netaddr}
        (changes : UsableChanges.self_t) (a : list string) :
  Parameters.v_addresses changes = Some a ->
  Forall (fun x => Py.contains "-" x = false) a ->
  Forall (fun x => Py.contains "-" x = true)
         (match Parameters.v_address_ranges changes with
          | Some r => r
          | None => []
          end) ->
  Parameters.v_addresses
    (ReportableChanges.to_return (UsableChanges.to_return changes)) = Some a.
Proof.
  intros Ha Fa Fr.
  unfold ReportableChanges.to_return. rewrite to_return_addresses.
  cbn [ReportableChanges.getattr]. unfold ReportableChanges.addresses.
  unfold UsableChanges.to_return. rewrite to_return_addresses.
  cbn [UsableChanges.getattr].
  rewrite (usable_addresses changes a Ha).
  cbn [ReportableChanges.iter rbind]. f_equal.
  rewrite (filter_entries (fun x => negb (Py.contains "-" x))).
  rewrite filter_app.
  rewrite (filter_all _ a), (filter_none _ _ (Forall_negb _ _ Fr));
    [apply app_nil_r|].
  eapply Forall_impl; [|exact Fa]. intros x Hx. simpl in *. now rewrite Hx.
Qed.

Lemma reported_addresses_round_trip_witness :
  Parameters.v_addresses
    (ReportableChanges.to_return
       (UsableChanges.to_return
          {| Parameters.v_addresses := Some ["2.2.2.2"; "1.1.1.1"];
             Parameters.v_address_ranges := Some ["3.3.3.3-4.4.4.4"];
             Parameters.v_address_lists := None;
             Parameters.v_description := Some "new";
             Parameters.v_fqdns := None;
             Parameters.v_geo_locations := None |}))
  = Some ["2.2.2.2"; "1.1.1.1"].
Proof.
  apply (reported_addresses_round_trip _ ["2.2.2.2"; "1.1.1.1"]).
  - reflexivity.
  - repeat constructor.
  - repeat constructor.
Defined.

(** X27. Addresses that were sent read back as no change: when the
    device's array is what the change-set sends for desired addresses
    without a ['-'] (together with ranges that each hold one, if any), the
    differ finds the addresses unchanged. *)
Theorem sent_addresses_read_back {netaddr : Netaddr}
        (want : params) (have : attrs)
        (changes : UsableChanges.self_t) (a : list string) :
  ModuleParameters.addresses want = Ok (Some a) ->
  Parameters.v_addresses changes = Some a ->
  Forall (fun x => Py.contains "-" x = false) a ->
  Forall (fun x => Py.contains "-" x = true)
         (match Parameters.v_address_ranges changes with
          | Some r => r
          | None => []
          end) ->
  w_addresses have = UsableChanges.addresses changes ->
  Difference.compare want have Parameters.addresses = Ok None.
Proof.
  intros Hw Ha Fa Fr Hh. cbn [Difference.compare].
  unfold Difference.addresses, ApiParameters.addresses.
  rewrite Hw, Hh, (usable_addresses changes a Ha).
  rewrite (filter_names (fun x => negb (Py.contains "-" x))).
  replace (map entry_name (UsableChanges.entries _))
    with (a ++ match Parameters.v_address_ranges changes with
               | Some r => r
               | None => []
               end)%list
    by (unfold UsableChanges.entries; rewrite map_map; simpl;
        now rewrite map_id).
  rewrite filter_app.
  rewrite (filter_all _ a), (filter_none _ _ (Forall_negb _ _ Fr)), app_nil_r.
  - unfold Difference.sorted_difference. simpl.
    rewrite sorted_idem.
    now rewrite (proj2 (list_ne_false _ _) eq_refl).
  - eapply Forall_impl; [|exact Fa]. intros x Hx. simpl in *. now rewrite Hx.
Qed.

Lemma sent_addresses_read_back_witness :
  Difference.compare (Examples.with_addresses ["2.2.2.2"; "1.1.1.1"])
    (Examples.holding ["1.1.1.1"; "2.2.2.2"; "3.3.3.3-4.4.4.4"])
    Parameters.addresses = Ok None.
Proof.
  apply (sent_addresses_read_back
           (Examples.with_addresses ["2.2.2.2"; "1.1.1.1"])
           (Examples.holding ["1.1.1.1"; "2.2.2.2"; "3.3.3.3-4.4.4.4"])
           {| Parameters.v_addresses := Some ["1.1.1.1"; "2.2.2.2"];
              Parameters.v_address_ranges := Some ["3.3.3.3-4.4.4.4"];
              Parameters.v_address_lists := None;
              Parameters.v_description := None;
              Parameters.v_fqdns := None;
              Parameters.v_geo_locations := None |}
           ["1.1.1.1"; "2.2.2.2"]).
  - reflexivity.
  - reflexivity.
  - repeat constructor.
  - repeat constructor.
  - reflexivity.
Defined.

(** ** A newline at the end of a hostname *)

Section Newline.

Lemma class_tail_newline (n : nat) :
  forall (c : ascii) (s : string),
    Py.contains newline s = false ->
    ModuleParameters.class_tail n c s = true ->
    ModuleParameters.class_tail n c (s ++ String newline EmptyString) = true.
Proof.
  induction n as [|n IH]; intros c s Hs H.
  - destruct s as [|d s]; simpl in *.
    + rewrite orb_false_r in *. apply andb_true_iff in H as [H _].
      now rewrite H.
    + rewrite orb_false_r in H. apply andb_true_iff in H as [_ H].
      apply orb_false_elim in Hs as [Hd _].
      destruct s; [unfold newline in Hd; rewrite Hd in H|]; discriminate.
  - destruct s as [|d s].
    + simpl in *. rewrite orb_false_r in H. apply andb_true_iff in H as [H _].
      now rewrite H.
    + simpl in Hs. apply orb_false_elim in Hs as [Hd Hs].
      cbn [ModuleParameters.class_tail] in H.
      replace (ModuleParameters.at_dollar (String d s)) with false in H
        by (destruct s; simpl; [unfold newline in Hd; now rewrite Hd | reflexivity]).
      rewrite andb_false_r, orb_false_l in H.
      apply andb_true_iff in H as [Hclass Htail].
      change (String d s ++ String newline EmptyString)
        with (String d (s ++ String newline EmptyString)).
      cbn [ModuleParameters.class_tail].
      rewrite Hclass, (IH d s Hs Htail). apply orb_true_r.
Qed.

Lemma allowed_match_newline (x : string) :
  Py.contains newline x = false ->
  ModuleParameters.allowed_match x = true ->
  ModuleParameters.allowed_match (x ++ String newline EmptyString) = true.
Proof.
  destruct x as [|c x]; [discriminate|].
  change (String c x ++ String newline EmptyString)
    with (String c (x ++ String newline EmptyString)).
  unfold ModuleParameters.allowed_match. cbn [Py.contains]. intros Hn H.
  apply orb_false_elim in Hn as [_ Hn].
  apply andb_true_iff in H as [H Htail]. rewrite H.
  now apply class_tail_newline.
Qed.

Lemma split_nonempty (sep : ascii) (s : string) : Py.split sep s <> [].
Proof.
  induction s as [|c s IH]; simpl; [discriminate|].
  destruct (Ascii.eqb c sep); [discriminate|].
  destruct (Py.split sep s); discriminate.
Qed.

(** Text without a separator, put at the end, goes to the last part. *)
Lemma split_app_tail (sep : ascii) (t : string) :
  Py.contains sep t = false ->
  forall s,
    Py.split sep (s ++ t)
    = (removelast (Py.split sep s)
       ++ [String.append (last (Py.split sep s) EmptyString) t])%list.
Proof.
  intros Ht. induction s as [|c s IH].
  - simpl. now apply split_without.
  - change (String c s ++ t) with (String c (s ++ t)).
    cbn [Py.split]. rewrite IH.
    pose proof (split_nonempty sep s) as Hne.
    destruct (Ascii.eqb c sep).
    + destruct (Py.split sep s) as [|p ps]; [contradiction | reflexivity].
    + destruct (Py.split sep s) as [|p [|q qs]]; [contradiction | reflexivity |].
      reflexivity.
Qed.

Lemma rstrip_char_other (ch c : ascii) (s : string) :
  Ascii.eqb c ch = false ->
  Py.rstrip_char ch (s ++ String c EmptyString) = s ++ String c EmptyString.
Proof.
  intros Hc. induction s as [|d s IH]; simpl.
  - now rewrite Hc.
  - rewrite IH. now destruct s.
Qed.

End Newline.

(** X28. The pattern's [$] also matches before a newline that ends the
    label: a hostname that passes the validation, does not end in a dot
    and has fewer than 255 characters still passes with a newline put at
    its end. *)
Theorem newline_ended_hostname_passes (host : string) :
  ModuleParameters.is_valid_hostname host = true ->
  Py.contains newline host = false ->
  Py.rstrip_char "." host = host ->
  String.length host < 255 ->
  ModuleParameters.is_valid_hostname (host ++ String newline EmptyString) = true.
Proof.
  intros Hvalid Hn Hdot Hlen.
  unfold ModuleParameters.is_valid_hostname in *.
  rewrite length_app_one.
  destruct (Nat.ltb_spec 255 (S (String.length host))) as [H1|_]; [lia|].
  destruct (Nat.ltb_spec 255 (String.length host)) as [H2|_]; [lia|].
  rewrite Hdot in Hvalid.
  rewrite (rstrip_char_other "." newline host eq_refl).
  rewrite (split_app_tail "." (String newline EmptyString) eq_refl).
  pose proof (split_nonempty "." host) as Hne.
  rewrite (app_removelast_last EmptyString Hne) in Hvalid.
  rewrite forallb_app in *. apply andb_true_iff in Hvalid as [Hinit Hlast].
  rewrite Hinit. simpl in *. rewrite andb_true_r in *.
  apply allowed_match_newline; [|exact Hlast].
  apply (contains_split newline "." host Hn).
  rewrite (app_removelast_last EmptyString Hne) at 2.
  apply in_or_app. right. now left.
Qed.

Lemma newline_ended_hostname_passes_witness :
  ModuleParameters.is_valid_hostname
    ("good.example.com" ++ String newline EmptyString) = true.
Proof.
  apply (newline_ended_hostname_passes "good.example.com").
  - reflexivity.
  - reflexivity.
  - reflexivity.
  - simpl. lia.
Defined.
